(** * waveline.dualtree: the dual-tree complex wavelet transform and the
      iterative baseline built on it, embedded from [src/waveline/dualtree.py].

    Samples are Python floats; they are rendered here as exact rationals
    ([Q]), so the development talks about the control flow, the shapes and
    the data movement of the module, not about rounding.  A complex sample
    is a pair (real part, imaginary part).

    The single-tree transforms ([dwt], [idwt], [wavedec], [waverec],
    [dwt_max_level], [Wavelet(name)]) come from PyWavelets and the filter
    table [dualtree_wavelet] from a module that is not part of the sources
    at hand: they are the fields of the class [PyWt], and every statement
    below is made for an arbitrary implementation of it. *)

From Stdlib Require Import QArith ZArith Lia.
From stdpp Require Import base option list strings.

(** ** Exceptions and the two monads of the module *)

Inductive PyErr := ValueError | NotImplementedError | IndexError | TypeError.

Inductive result (A : Type) : Type :=
| Ok (a : A)
| Raise (e : PyErr).
Arguments Ok {A} a.
Arguments Raise {A} e.

#[global] Instance result_ret : MRet result := fun A a => Ok a.
#[global] Instance result_bind : MBind result :=
  fun A B f m => match m with Ok a => f a | Raise e => Raise e end.
#[global] Instance result_fmap : FMap result :=
  fun A B f m => match m with Ok a => Ok (f a) | Raise e => Raise e end.

(** [for x in xs: acc = f(acc, x)], stopping at the first exception. *)
Fixpoint foldM {A B : Type} (f : B -> A -> result B) (acc : B) (xs : list A)
  : result B :=
  match xs with
  | [] => Ok acc
  | x :: xs' => acc' ← f acc x; foldM f acc' xs'
  end.

(** [[f(x) for x in xs]], stopping at the first exception. *)
Fixpoint mapM_result {A B : Type} (f : A -> result B) (xs : list A)
  : result (list B) :=
  match xs with
  | [] => Ok []
  | x :: xs' => y ← f x; ys ← mapM_result f xs'; Ok (y :: ys)
  end.

(** A call of [warnings.warn(msg, UserWarning)] is recorded in a log that
    travels with the outcome; an exception keeps the log written so far. *)
Inductive Warning := UserWarning (requested maximum : Z).

Record M (A : Type) : Type := mkM { log : list Warning; outcome : result A }.
Arguments mkM {A} log outcome.
Arguments log {A} m.
Arguments outcome {A} m.

#[global] Instance M_ret : MRet M := fun A a => mkM [] (Ok a).
#[global] Instance M_bind : MBind M :=
  fun A B f m =>
    match outcome m with
    | Ok a => mkM (log m ++ log (f a)) (outcome (f a))
    | Raise e => mkM (log m) (Raise e)
    end.

Definition lift {A : Type} (r : result A) : M A := mkM [] r.
Definition warn (w : Warning) : M unit := mkM [w] (Ok tt).
Definition raise {A : Type} (e : PyErr) : M A := mkM [] (Raise e).

(** ** numpy arrays

    An [ndarray] is a shape and a flat buffer in row-major order.  A numpy
    scalar (what indexing a 1-D array yields) is the 0-d case, shape [[]]. *)

Definition C : Type := Q * Q.

Record narray (A : Type) : Type := mk_array { shape : list nat; data : list A }.
Arguments mk_array {A} shape data.
Arguments shape {A} _.
Arguments data {A} _.

Definition farray := narray Q.      (* dtype float64 *)
Definition carray := narray C.      (* dtype complex128 *)
Definition barray := narray bool.   (* dtype bool *)

Inductive ndarray := F64 (a : farray) | C128 (a : carray).

Definition arr1 {A : Type} (xs : list A) : narray A := mk_array [length xs] xs.
Definition scalar {A : Type} (x : A) : narray A := mk_array [] [x].

Definition prod_list (ns : list nat) : nat := foldr Nat.mul 1 ns.

Section Array.
Context {A : Type}.

Definition ndim (a : narray A) : nat := length (shape a).
Definition size (a : narray A) : nat := prod_list (shape a).

(** [len(a)]: a 0-d array is unsized. *)
Definition py_len (a : narray A) : result nat :=
  match shape a with
  | [] => Raise TypeError
  | n :: _ => Ok n
  end.

(** Number of buffer cells of one entry along the first axis. *)
Definition stride (a : narray A) : nat := prod_list (tail (shape a)).

(** Python's treatment of a possibly negative index into [n] entries. *)
Definition norm_index (n : nat) (i : Z) : result nat :=
  let j := (if i <? 0 then i + Z.of_nat n else i)%Z in
  if ((0 <=? j) && (j <? Z.of_nat n))%Z then Ok (Z.to_nat j) else Raise IndexError.

(** [slice(start, stop).indices(n)] for the default step. *)
Definition norm_bound (n : nat) (dflt : nat) (b : option Z) : nat :=
  match b with
  | None => dflt
  | Some z =>
      let j := (if z <? 0 then z + Z.of_nat n else z)%Z in
      Z.to_nat (Z.min (Z.max j 0) (Z.of_nat n))
  end.

(** [a[i]] *)
Definition getitem (a : narray A) (i : Z) : result (narray A) :=
  match shape a with
  | [] => Raise IndexError
  | n :: rest =>
      k ← norm_index n i;
      Ok (mk_array rest (take (stride a) (drop (k * stride a) (data a))))
  end.

(** [a[start:stop]] *)
Definition getslice (a : narray A) (start stop : option Z) : result (narray A) :=
  match shape a with
  | [] => Raise IndexError
  | n :: rest =>
      let lo := norm_bound n 0 start in
      let hi := norm_bound n n stop in
      Ok (mk_array ((hi - lo) :: rest)
            (take ((hi - lo) * stride a) (drop (lo * stride a) (data a))))
  end.

(** [a[i] = v] *)
Definition setitem (a : narray A) (i : Z) (v : narray A) : result (narray A) :=
  match shape a with
  | [] => Raise IndexError
  | n :: rest =>
      k ← norm_index n i;
      if decide (shape v = rest) then
        Ok (mk_array (shape a)
              (take (k * stride a) (data a) ++ data v
                 ++ drop ((k + 1) * stride a) (data a)))
      else Raise ValueError
  end.

(** [a[start:stop] = v] *)
Definition setslice (a : narray A) (start stop : option Z) (v : narray A)
  : result (narray A) :=
  match shape a with
  | [] => Raise IndexError
  | n :: rest =>
      let lo := norm_bound n 0 start in
      let hi := norm_bound n n stop in
      if decide (shape v = (hi - lo) :: rest) then
        Ok (mk_array (shape a)
              (take (lo * stride a) (data a) ++ data v
                 ++ drop ((lo + (hi - lo)) * stride a) (data a)))
      else Raise ValueError
  end.

(** [for x in a]: the entries along the first axis. *)
Definition iterate (a : narray A) : result (list (narray A)) :=
  match shape a with
  | [] => Raise TypeError
  | n :: rest =>
      Ok ((fun k => mk_array rest (take (stride a) (drop (k * stride a) (data a))))
            <$> seq 0 n)
  end.
End Array.

Definition zeros_like_f (a : farray) : farray :=
  mk_array (shape a) ((fun _ => 0%Q) <$> data a).
Definition zeros_like_c (a : carray) : carray :=
  mk_array (shape a) ((fun _ => (0%Q, 0%Q)) <$> data a).
Definition zeros_like_bool {A : Type} (a : narray A) : barray :=
  mk_array (shape a) ((fun _ => false) <$> data a).

(** Operations that look through the dtype. *)
Definition nd_shape (x : ndarray) : list nat :=
  match x with F64 a => shape a | C128 a => shape a end.
Definition nd_size (x : ndarray) : nat := prod_list (nd_shape x).
Definition nd_cdata (x : ndarray) : list C :=
  match x with F64 a => (fun q => (q, 0%Q)) <$> data a | C128 a => data a end.
Definition zeros_like (x : ndarray) : ndarray :=
  match x with F64 a => F64 (zeros_like_f a) | C128 a => C128 (zeros_like_c a) end.
Definition np_real (x : ndarray) : farray :=
  match x with F64 a => a | C128 a => mk_array (shape a) (fst <$> data a) end.
Definition np_imag (x : ndarray) : farray :=
  match x with F64 a => zeros_like_f a | C128 a => mk_array (shape a) (snd <$> data a) end.

(** ** Element-wise arithmetic, comparison and boolean-mask indexing *)

Definition Cadd (x y : C) : C := ((x.1 + y.1)%Q, (x.2 + y.2)%Q).
Definition Cmul (x y : C) : C :=
  ((x.1 * y.1 - x.2 * y.2)%Q, (x.1 * y.2 + x.2 * y.1)%Q).
Definition Cj : C := (0%Q, 1%Q).                         (* the literal 1j *)
Definition of_float (q : Q) : C := (q, 0%Q).

Definition Qgtb (x y : Q) : bool := negb (Qle_bool x y).
(** numpy orders complex numbers lexicographically. *)
Definition Cgtb (x y : C) : bool :=
  Qgtb x.1 y.1 || (Qeq_bool x.1 y.1 && Qgtb x.2 y.2).

Definition all_ones (s : list nat) : bool := forallb (Nat.eqb 1) s.

(** Broadcasting of two operands: equal shapes pair up cell by cell, an
    operand with a single cell (shape [()], [(1,)], ...) is repeated along
    the other one.  These are the combinations that arise between 0-d and
    1-d operands; anything else is rejected. *)
Definition broadcast2 {A B : Type} (a : narray A) (b : narray B)
  : result (list nat * list (A * B)) :=
  if decide (shape a = shape b) then Ok (shape a, zip (data a) (data b))
  else if all_ones (shape a) && (ndim a <=? ndim b) then
    match data a with
    | [x] => Ok (shape b, (fun y => (x, y)) <$> data b)
    | _ => Raise ValueError
    end
  else if all_ones (shape b) && (ndim b <=? ndim a) then
    match data b with
    | [y] => Ok (shape a, (fun x => (x, y)) <$> data a)
    | _ => Raise ValueError
    end
  else Raise ValueError.

(** [a + b] on float arrays *)
Definition arr_add (a b : farray) : result farray :=
  '(s, ps) ← broadcast2 a b;
  Ok (mk_array s ((fun p => (p.1 + p.2)%Q) <$> ps)).

(** [q * a] for a Python float [q] *)
Definition arr_scale (q : Q) (a : farray) : farray :=
  mk_array (shape a) (Qmult q <$> data a).

(** [real + 1j*imag]: the product is a complex array, the sum promotes
    [real] to complex. *)
Definition complex_combine (real imag : farray) : result carray :=
  let j_imag : carray :=
    mk_array (shape imag) ((fun b => Cmul Cj (of_float b)) <$> data imag) in
  '(s, ps) ← broadcast2 real j_imag;
  Ok (mk_array s ((fun p => Cadd (of_float p.1) p.2) <$> ps)).

(** [signal > background] *)
Definition arr_gt (signal : farray) (background : ndarray) : result barray :=
  match background with
  | F64 b =>
      '(s, ps) ← broadcast2 signal b;
      Ok (mk_array s ((fun p => Qgtb p.1 p.2) <$> ps))
  | C128 b =>
      '(s, ps) ← broadcast2 signal b;
      Ok (mk_array s ((fun p => Cgtb (of_float p.1) p.2) <$> ps))
  end.

(** The cells of [xs] at the [True] positions of [m], in order. *)
Fixpoint select {A : Type} (m : list bool) (xs : list A) : list A :=
  match m, xs with
  | b :: m', x :: xs' => if b then x :: select m' xs' else select m' xs'
  | _, _ => []
  end.

(** [xs] with the [True] positions of [m] overwritten by [vals], in order. *)
Fixpoint scatter {A : Type} (m : list bool) (xs vals : list A) : list A :=
  match m, xs with
  | b :: m', x :: xs' =>
      if b then
        match vals with
        | v :: vals' => v :: scatter m' xs' vals'
        | [] => x :: scatter m' xs' []
        end
      else x :: scatter m' xs' vals
  | _, _ => xs
  end.

(** [xs] with the [True] positions of [m] overwritten by the one value [v]. *)
Fixpoint fill {A : Type} (m : list bool) (xs : list A) (v : A) : list A :=
  match m, xs with
  | b :: m', x :: xs' => (if b then v else x) :: fill m' xs' v
  | _, _ => xs
  end.

Definition count_true (m : list bool) : nat := length (filter (eq true) m).

(** [b[m]] for a boolean array [m] of the shape of [b]: a 1-D array.  A
    mask of another shape is refused (numpy does so for a mask of the rank
    of [b]; masks of lower rank do not occur between arrays of one
    shape). *)
Definition mask_select (b : ndarray) (m : barray) : result ndarray :=
  if decide (nd_shape b = shape m) then
    Ok (match b with
        | F64 a => F64 (arr1 (select (data m) (data a)))
        | C128 a => C128 (arr1 (select (data m) (data a)))
        end)
  else Raise IndexError.

(** [s[m] = v] for a float array [s]: [v] supplies one value per [True]
    position, or a single value for all of them; complex values are cast
    to float by dropping the imaginary part. *)
Definition mask_assign (s : farray) (m : barray) (v : ndarray) : result farray :=
  if decide (shape s = shape m) then
    let vals := fst <$> nd_cdata v in
    if decide (nd_shape v = [count_true (data m)]) then
      Ok (mk_array (shape s) (scatter (data m) (data s) vals))
    else if all_ones (nd_shape v) then
      match vals with
      | [x] => Ok (mk_array (shape s) (fill (data m) (data s) x))
      | _ => Raise ValueError
      end
    else Raise ValueError
  else Raise IndexError.

(** [b[m] = q] for a Python number [q] *)
Definition mask_fill (b : ndarray) (m : barray) (q : Q) : result ndarray :=
  if decide (nd_shape b = shape m) then
    Ok (match b with
        | F64 a => F64 (mk_array (shape a) (fill (data m) (data a) q))
        | C128 a => C128 (mk_array (shape a) (fill (data m) (data a) (of_float q)))
        end)
  else Raise IndexError.

(** ** Wavelet objects

    A [pywt.Wavelet] is immutable: its four filters live in C arrays, and
    every read of [filter_bank] builds four new Python lists from them.
    Python lists are mutable objects; they live in a heap addressed by
    allocation order. *)

Record Wavelet : Type := mkWavelet {
  name : string;
  dec_lo : list Q;
  dec_hi : list Q;
  rec_lo : list Q;
  rec_hi : list Q
}.

Definition dec_len (w : Wavelet) : nat := length (dec_lo w).

(** What the constructor of [Wavelet] guarantees of every instance. *)
Definition wf_wavelet (w : Wavelet) : Prop :=
  0 < length (dec_lo w) ∧ length (dec_hi w) = length (dec_lo w)
  ∧ length (rec_lo w) = length (dec_lo w) ∧ length (rec_hi w) = length (dec_lo w).

Abbreviation loc := nat (only parsing).
Abbreviation heap := (list (list Q)) (only parsing).

Definition alloc (v : list Q) (h : heap) : loc * heap := (length h, h ++ [v]).
Definition deref (h : heap) (l : loc) : list Q := default [] (h !! l).

(** [wavelet.filter_bank] *)
Definition filter_bank (w : Wavelet) (h : heap) : (loc * loc * loc * loc) * heap :=
  let '(l1, h) := alloc (dec_lo w) h in
  let '(l2, h) := alloc (dec_hi w) h in
  let '(l3, h) := alloc (rec_lo w) h in
  let '(l4, h) := alloc (rec_hi w) h in
  ((l1, l2, l3, l4), h).

(** [bank[:-1]], a new list (returned by value: it is only read once) *)
Definition list_but_last (bank : loc) (h : heap) : list Q :=
  take (length (deref h bank) - 1) (deref h bank).

(** [bank[1:] = v] *)
Definition list_set_from1 (bank : loc) (v : list Q) (h : heap) : heap :=
  <[bank := take 1 (deref h bank) ++ v]> h.

(** [bank[0] = q] *)
Definition list_set0 (bank : loc) (q : Q) (h : heap) : result heap :=
  match deref h bank with
  | [] => Raise IndexError
  | _ :: _ => Ok (<[bank := <[0 := q]> (deref h bank)]> h)
  end.

(** [bank[1:], bank[0] = bank[:-1], 0]: the right-hand side is evaluated
    first, then the two targets are assigned from left to right. *)
Definition shift_bank (h : heap) (bank : loc) : result heap :=
  let rhs := list_but_last bank h in
  let h := list_set_from1 bank rhs h in
  list_set0 bank 0%Q h.

(** [Wavelet(name = ..., filter_bank = [dec_lo, dec_hi, rec_lo, rec_hi])]:
    the filters are copied out of the lists; they must be non-empty and of
    one length. *)
Definition Wavelet_custom (nm : string) (bank : loc * loc * loc * loc) (h : heap)
  : result Wavelet :=
  let '(l1, l2, l3, l4) := bank in
  let n := length (deref h l1) in
  if decide (0 < n ∧ length (deref h l2) = n ∧ length (deref h l3) = n
             ∧ length (deref h l4) = n)
  then Ok (mkWavelet nm (deref h l1) (deref h l2) (deref h l3) (deref h l4))
  else Raise ValueError.

(** A parameter that is "a name or a Wavelet object". *)
Inductive WaveletSpec := ByName (s : string) | ByObject (w : Wavelet).

(** ** The external transforms *)

Class PyWt : Type := {
  (** [pywt.Wavelet(name)] *)
  Wavelet_by_name : string -> result Wavelet;
  (** [wavelets.dualtree_wavelet(name)]: the (real, imaginary) pair *)
  dualtree_wavelet : string -> result (Wavelet * Wavelet);
  (** [pywt.dwt(data, wavelet, mode)]: (approx, detail) *)
  dwt : farray -> Wavelet -> string -> result (farray * farray);
  (** [pywt.idwt(cA, cD, wavelet, mode)] *)
  idwt : farray -> farray -> Wavelet -> string -> result farray;
  (** [pywt.wavedec(data, wavelet, mode, level)] *)
  wavedec : farray -> Wavelet -> string -> Z -> result (list farray);
  (** [pywt.waverec(coeffs, wavelet, mode)] *)
  waverec : list farray -> Wavelet -> string -> result farray;
  (** [pywt.dwt_max_level(data_len, filter_len)] *)
  dwt_max_level : nat -> nat -> result Z
}.

(** ** The module *)

(** [level]: an int or the string ['max'] *)
Inductive Level := LMax | LInt (l : Z).

(** What [dtanalysis] hands back: the list of complex coefficient arrays,
    or, at level 0, the input array itself. *)
Inductive Analysis := Bare (data : farray) | Coeffs (coeffs_list : list carray).

(** An entry of [background_regions] for a 1-D signal: an int or a slice. *)
Inductive Index := Idx (i : Z) | Slice (start stop : option Z).

(** [min(shape)] *)
Definition py_min (ns : list nat) : result nat :=
  match ns with
  | [] => Raise ValueError
  | n :: ns' => Ok (foldr Nat.min n ns')
  end.

(** [coeffs[0]], [coeffs[1:]] and [for det in coeffs] on either kind *)
Definition analysis_head (c : Analysis) : result ndarray :=
  match c with
  | Bare a => F64 <$> getitem a 0
  | Coeffs [] => Raise IndexError
  | Coeffs (c0 :: _) => Ok (C128 c0)
  end.

Definition analysis_tail (c : Analysis) : result Analysis :=
  match c with
  | Bare a => Bare <$> getslice a (Some 1%Z) None
  | Coeffs l => Ok (Coeffs (drop 1 l))
  end.

Definition analysis_iter (c : Analysis) : result (list ndarray) :=
  match c with
  | Bare a => xs ← iterate a; Ok (fmap (M:=list) F64 xs)
  | Coeffs l => Ok (C128 <$> l)
  end.

(** [x[:n]] and [x.shape[0]] through the dtype *)
Definition nd_take (x : ndarray) (n : nat) : result ndarray :=
  match x with
  | F64 a => F64 <$> getslice a None (Some (Z.of_nat n))
  | C128 a => C128 <$> getslice a None (Some (Z.of_nat n))
  end.

Definition shape0 (s : list nat) : result nat :=
  match s with
  | [] => Raise IndexError
  | n :: _ => Ok n
  end.

Definition EXTENSION_MODE : string := "symmetric".

(** Lines 124-128 of [dt_approx_rec]: ['max'] and too high a level both
    resolve to the maximum, the latter with a warning. *)
Definition resolve_level (level : Level) (max_level : Z) : M Z :=
  match level with
  | LMax => mret max_level
  | LInt l =>
      if (max_level <? l)%Z
      then _ ← warn (UserWarning l max_level); mret max_level
      else mret l
  end.

Section DualTree.
Context `{L : PyWt}.

(** [if not isinstance(w, Wavelet): w = Wavelet(w)] *)
Definition as_Wavelet (w : WaveletSpec) : result Wavelet :=
  match w with
  | ByName s => Wavelet_by_name s
  | ByObject w => Ok w
  end.

(** [dt_first_stage], lines 194-215, with the heap of list objects made
    explicit. *)
Definition dt_first_stage_heap (wavelet : WaveletSpec) (h : heap)
  : result (Wavelet * Wavelet * heap) :=
  wavelet ← as_Wavelet wavelet;
  let '((b_dec_lo, b_dec_hi, b_rec_lo, b_rec_hi), h) := filter_bank wavelet h in
  h ← foldM shift_bank h [b_dec_lo; b_dec_hi; b_rec_lo; b_rec_hi];
  wav2 ← Wavelet_custom (name wavelet) (b_dec_lo, b_dec_hi, b_rec_lo, b_rec_hi) h;
  Ok (wavelet, wav2, h).

(** The two wavelets it returns; the lists it worked on are garbage. *)
Definition dt_first_stage (wavelet : WaveletSpec) : result (Wavelet * Wavelet) :=
  fst <$> dt_first_stage_heap wavelet [].

(** [dt_max_level], lines 168-192 *)
Definition dt_max_level (data : farray) (first_stage : WaveletSpec) (wavelet : string)
  : result Z :=
  '(real_wavelet, imag_wavelet) ← dualtree_wavelet wavelet;
  first_stage ← as_Wavelet first_stage;
  data_len ← py_min (shape data);
  dwt_max_level data_len
    (Nat.max (dec_len real_wavelet) (Nat.max (dec_len imag_wavelet) (dec_len first_stage))).

(** [_dt_analysis_tree], lines 314-321 *)
Definition _dt_analysis_tree (data : farray) (first_stage wavelet : Wavelet)
    (level : Z) (mode : string) : result (list farray) :=
  '(approx, detail) ← dwt data first_stage mode;
  coeffs ← wavedec approx wavelet mode (level - 1)%Z;
  Ok (coeffs ++ [detail]).

(** [_dt_synthesis_tree], lines 323-333 *)
Definition _dt_synthesis_tree (coeffs : list farray) (first_stage wavelet : Wavelet)
    (mode : string) : result farray :=
  let late_stage_coeffs := take (length coeffs - 1) coeffs in
  first_stage_detail ← match last coeffs with
                       | Some d => Ok d
                       | None => Raise IndexError
                       end;
  late_synthesis ← waverec late_stage_coeffs wavelet mode;
  n_late ← py_len late_synthesis;
  n_detail ← py_len first_stage_detail;
  late_synthesis ← (if n_late =? n_detail + 1
                    then getslice late_synthesis None (Some (-1)%Z)
                    else Ok late_synthesis);
  idwt late_synthesis first_stage_detail first_stage mode.

(** The two trees of [dtanalysis], lines 260-268 *)
Definition analysis_trees (data : farray) (real_first imag_first : Wavelet)
    (real_wavelet imag_wavelet : Wavelet) (level : Z) (mode : string)
  : result Analysis :=
  real_coeffs ← _dt_analysis_tree data real_first real_wavelet level mode;
  imag_coeffs ← _dt_analysis_tree data imag_first imag_wavelet level mode;
  coeffs_list ← mapM_result (fun p => complex_combine p.1 p.2)
                  (zip real_coeffs imag_coeffs);
  Ok (Coeffs coeffs_list).

(** [dtanalysis], lines 218-268 *)
Definition dtanalysis (data : farray) (first_stage : WaveletSpec) (wavelet : string)
    (level : Level) (mode : string) : result Analysis :=
  '(real_wavelet, imag_wavelet) ← dualtree_wavelet wavelet;
  '(real_first, imag_first) ← dt_first_stage first_stage;
  first_stage ← as_Wavelet first_stage;
  match level with
  | LMax =>
      level ← dt_max_level data (ByObject first_stage) wavelet;
      analysis_trees data real_first imag_first real_wavelet imag_wavelet level mode
  | LInt level =>
      if (level <? 0)%Z then Raise ValueError
      else if (level =? 0)%Z then Ok (Bare data)
      else analysis_trees data real_first imag_first real_wavelet imag_wavelet level mode
  end.

(** [dtsynthesis], lines 270-312 *)
Definition dtsynthesis (coeffs : list ndarray) (first_stage : WaveletSpec)
    (wavelet : string) (mode : string) : result ndarray :=
  '(real_wavelet, imag_wavelet) ← dualtree_wavelet wavelet;
  '(real_first, imag_first) ← dt_first_stage first_stage;
  match coeffs with
  | [] => Raise ValueError
  | [c] => Ok c
  | _ =>
      let real_coeffs := np_real <$> coeffs in
      let imag_coeffs := np_imag <$> coeffs in
      real ← _dt_synthesis_tree real_coeffs real_first real_wavelet mode;
      imag ← _dt_synthesis_tree imag_coeffs imag_first imag_wavelet mode;
      sum ← arr_add real imag;
      Ok (F64 (arr_scale (1 # 2) sum))
  end.

(** Lines 150-166 of [dt_approx_rec].  Past the rank guard and
    [dt_max_level] the rank is 1; for another rank the function would fall
    off its end, which is rendered as [TypeError] and never happens
    (see [dt_max_level_rank]). *)
Definition reconcile (dim : nat) (original_array : farray) (reconstructed : ndarray)
  : result ndarray :=
  if nd_size reconstructed =? size original_array then Ok reconstructed
  else if size original_array <? nd_size reconstructed then
    if dim =? 1 then
      n0 ← shape0 (shape original_array);
      nd_take reconstructed n0
    else Raise TypeError
  else
    let extended_reconstructed := zeros_like_f original_array in
    if dim =? 1 then
      k ← shape0 (nd_shape reconstructed);
      F64 <$> setslice extended_reconstructed None (Some (Z.of_nat k))
                (np_real reconstructed)
    else Ok (F64 extended_reconstructed).

(** [dt_approx_rec], lines 80-166.  The [mask] argument is accepted and
    not used. *)
Definition dt_approx_rec (array : farray) (level : Level) (first_stage : WaveletSpec)
    (wavelet : string) (mask : option barray) : M ndarray :=
  let original_array := array in
  let dim := ndim array in
  if 2 <? dim then raise ValueError
  else if dim =? 2 then raise NotImplementedError
  else
    first_stage ← lift (as_Wavelet first_stage);
    max_level ← lift (dt_max_level array (ByObject first_stage) wavelet);
    level ← resolve_level level max_level;
    coeffs ← lift (dtanalysis array (ByObject first_stage) wavelet (LInt level)
                     EXTENSION_MODE);
    app_coeffs ← lift (analysis_head coeffs);
    det_coeffs ← lift (analysis_tail coeffs);
    zeroed ← lift (if dim =? 1
                   then dets ← analysis_iter det_coeffs;
                        Ok (fmap (M:=list) zeros_like dets)
                   else Ok []);
    reconstructed ← lift (dtsynthesis (app_coeffs :: zeroed) (ByObject first_stage)
                            wavelet EXTENSION_MODE);
    lift (reconcile dim original_array reconstructed).

(** [signal[index] = array[index]] *)
Definition pin (array signal : farray) (index : Index) : result farray :=
  match index with
  | Idx i => v ← getitem array i; setitem signal i v
  | Slice start stop => v ← getslice array start stop; setslice signal start stop v
  end.

(** [signal[signal > background] = background[signal > background]]: the
    right-hand side first, then the index of the target. *)
Definition clamp (signal : farray) (background : ndarray) : result farray :=
  rhs ← (m ← arr_gt signal background; mask_select background m);
  m ← arr_gt signal background;
  mask_assign signal m rhs.

(** One pass of the loop of [dt_baseline], lines 64-74 *)
Definition baseline_iteration (array : farray) (level : Level)
    (first_stage : WaveletSpec) (wavelet : string) (background_regions : list Index)
    (mask : barray) (signal : farray) : M (farray * ndarray) :=
  signal ← lift (foldM (pin array) signal background_regions);
  background ← dt_approx_rec signal level first_stage wavelet (Some mask);
  signal ← lift (clamp signal background);
  mret (signal, background).

(** [for i in range(n)] *)
Fixpoint baseline_loop (n : nat) (array : farray) (level : Level)
    (first_stage : WaveletSpec) (wavelet : string) (background_regions : list Index)
    (mask : barray) (signal : farray) (background : ndarray) : M (farray * ndarray) :=
  match n with
  | O => mret (signal, background)
  | S n' =>
      '(signal, background) ← baseline_iteration array level first_stage wavelet
                                background_regions mask signal;
      baseline_loop n' array level first_stage wavelet background_regions mask
        signal background
  end.

(** [dt_baseline], lines 10-78 *)
Definition dt_baseline (array : farray) (max_iter : Z) (level : Level)
    (first_stage : WaveletSpec) (wavelet : string) (background_regions : list Index)
    (mask : option barray) : M ndarray :=
  let mask := match mask with
              | None => zeros_like_bool array
              | Some m => m
              end in
  let signal := array in
  let background := F64 (zeros_like_f array) in
  '(signal, background) ← baseline_loop (Z.to_nat max_iter) array level first_stage
                            wavelet background_regions mask signal background;
  lift (mask_fill background mask 0).

End DualTree.

(** ** A small implementation of the external transforms

    The lazy wavelet: analysis splits a signal into its even and its odd
    samples (an odd-length signal is first extended by repeating its last
    sample), synthesis interleaves them again.  The multilevel drivers and
    the level bound follow PyWavelets.  It serves to run the module on
    concrete data. *)

Module Reference.

Definition lazy_wavelet : Wavelet :=
  mkWavelet "lazy" [1; 0]%Q [0; 1]%Q [1; 0]%Q [0; 1]%Q.

(** The lazy filters padded with zeros to twelve taps. *)
Definition padded_wavelet : Wavelet :=
  mkWavelet "padded"
    ([1; 0]%Q ++ replicate 10 0%Q) ([0; 1]%Q ++ replicate 10 0%Q)
    ([1; 0]%Q ++ replicate 10 0%Q) ([0; 1]%Q ++ replicate 10 0%Q).

Definition by_name (s : string) : result Wavelet :=
  if decide (s = "lazy") then Ok lazy_wavelet else Raise ValueError.

Definition pair_by_name (s : string) : result (Wavelet * Wavelet) :=
  if decide (s = "lazy") then Ok (lazy_wavelet, lazy_wavelet) else Raise ValueError.

Fixpoint evens (xs : list Q) : list Q :=
  match xs with
  | [] => []
  | x :: xs' => x :: odds xs'
  end
with odds (xs : list Q) : list Q :=
  match xs with
  | [] => []
  | _ :: xs' => evens xs'
  end.

Fixpoint interleave (a d : list Q) : list Q :=
  match a, d with
  | x :: a', y :: d' => x :: y :: interleave a' d'
  | _, _ => []
  end.

Definition lazy_dwt (x : farray) (w : Wavelet) (mode : string)
  : result (farray * farray) :=
  match shape x with
  | [n] =>
      match last (data x) with
      | None => Raise ValueError
      | Some z =>
          let xs := if Nat.even n then data x else data x ++ [z] in
          Ok (arr1 (evens xs), arr1 (odds xs))
      end
  | _ => Raise ValueError
  end.

Definition lazy_idwt (cA cD : farray) (w : Wavelet) (mode : string) : result farray :=
  match shape cA, shape cD with
  | [n], [k] =>
      if n =? k then Ok (arr1 (interleave (data cA) (data cD))) else Raise ValueError
  | _, _ => Raise ValueError
  end.

Fixpoint wavedec_loop (k : nat) (a : farray) (w : Wavelet) (mode : string)
    (acc : list farray) : result (list farray) :=
  match k with
  | O => Ok (a :: acc)
  | S k' => '(a', d) ← lazy_dwt a w mode; wavedec_loop k' a' w mode (d :: acc)
  end.

Definition lazy_wavedec (x : farray) (w : Wavelet) (mode : string) (level : Z)
  : result (list farray) :=
  if (level <? 0)%Z then Raise ValueError
  else wavedec_loop (Z.to_nat level) x w mode [].

Fixpoint waverec_loop (a : farray) (ds : list farray) (w : Wavelet) (mode : string)
  : result farray :=
  match ds with
  | [] => Ok a
  | d :: ds' =>
      na ← py_len a;
      nd ← py_len d;
      a ← (if na =? nd + 1 then getslice a None (Some (-1)%Z) else Ok a);
      a' ← lazy_idwt a d w mode;
      waverec_loop a' ds' w mode
  end.

Definition lazy_waverec (coeffs : list farray) (w : Wavelet) (mode : string)
  : result farray :=
  match coeffs with
  | [] => Raise ValueError
  | a :: ds => waverec_loop a ds w mode
  end.

Definition max_level (data_len filter_len : nat) : result Z :=
  if (filter_len <=? 1) || (data_len <? filter_len - 1) then Ok 0%Z
  else Ok (Z.log2 (Z.of_nat (data_len / (filter_len - 1)))).

#[export] Instance lazy : PyWt := {|
  Wavelet_by_name := by_name;
  dualtree_wavelet := pair_by_name;
  dwt := lazy_dwt;
  idwt := lazy_idwt;
  wavedec := lazy_wavedec;
  waverec := lazy_waverec;
  dwt_max_level := max_level
|}.

End Reference.

(** ** Vocabulary of the statements *)

(** What [bank[1:], bank[0] = bank[:-1], 0] leaves in a non-empty list. *)
Definition shift (xs : list Q) : list Q := 0%Q :: take (length xs - 1) xs.

(** The relation between a filter and its shifted version. *)
Definition shifted (input output : list Q) : Prop :=
  length output = length input
  /\ output !! 0 = Some 0%Q
  /\ forall i, 1 <= i -> i < length input -> output !! i = input !! (i - 1).

(** A 1-D float array of [n] samples. *)
Definition wf1 (n : nat) (a : farray) : Prop := shape a = [n] /\ length (data a) = n.

(** The positions of a signal of [n] samples that an entry of
    [background_regions] designates. *)
Definition covers (n : nat) (index : Index) (i : nat) : Prop :=
  match index with
  | Idx z => norm_index n z = Ok i
  | Slice start stop => norm_bound n 0 start <= i < norm_bound n n stop
  end.

(** Equality of complex samples as numbers. *)
Definition Ceq (x y : C) : Prop := (x.1 == y.1)%Q /\ (x.2 == y.2)%Q.

(** The contract of [pywt.wavedec] used in the statements: a decomposition at level
    [k >= 0] has [k + 1] entries, [[cA_k, cD_k, ..., cD_1]]. *)
Definition wavedec_contract `{PyWt} : Prop :=
  forall x w mode k r, (0 <= k)%Z -> wavedec x w mode k = Ok r ->
                       length r = Z.to_nat k + 1.

(** The contract of [pywt.idwt] used in the statements: the reconstruction is 1-D. *)
Definition idwt_contract `{PyWt} : Prop :=
  forall cA cD w mode x, idwt cA cD w mode = Ok x -> ndim x = 1.

(** An int within the bounds of the array, or any slice. *)
Definition in_bounds (n : nat) (index : Index) : Prop :=
  match index with
  | Idx z => (- Z.of_nat n <= z < Z.of_nat n)%Z
  | Slice _ _ => True
  end.

(** Pointwise order between two sample lists, where both have a sample. *)
Definition below (xs ys : list Q) : Prop :=
  forall i x y, xs !! i = Some x -> ys !! i = Some y -> (x <= y)%Q.

(** * Properties *)

(** ** Reasoning about the monads *)

Lemma bind_Ok {A B : Type} (m : result A) (f : A -> result B) (b : B) :
  m ≫= f = Ok b <-> exists a, m = Ok a /\ f a = Ok b.
Proof.
  destruct m as [a|e]; simpl; split.
  - intros Hf. exists a. split; [reflexivity | exact Hf].
  - intros (a' & Ha & Hf). injection Ha as ->. exact Hf.
  - discriminate.
  - intros (a' & Ha & _). discriminate.
Qed.

Lemma fmap_Ok {A B : Type} (m : result A) (f : A -> B) (b : B) :
  f <$> m = Ok b <-> exists a, m = Ok a /\ b = f a.
Proof.
  destruct m as [a|e]; simpl; split.
  - intros [= <-]. eauto.
  - intros (a' & [= <-] & ->). reflexivity.
  - discriminate.
  - intros (a' & Ha & _). discriminate.
Qed.

Lemma outcome_bind {A B : Type} (m : M A) (f : A -> M B) :
  outcome (m ≫= f) = match outcome m with
                     | Ok a => outcome (f a)
                     | Raise e => Raise e
                     end.
Proof. unfold mbind, M_bind. destruct (outcome m); reflexivity. Qed.

Lemma outcome_bind_Ok {A B : Type} (m : M A) (f : A -> M B) (b : B) :
  outcome (m ≫= f) = Ok b <-> exists a, outcome m = Ok a /\ outcome (f a) = Ok b.
Proof.
  rewrite outcome_bind. destruct (outcome m) as [a|e]; split.
  - eauto.
  - intros (a' & [= <-] & Hf). exact Hf.
  - discriminate.
  - intros (a' & Ha & _). discriminate.
Qed.

Lemma outcome_lift {A : Type} (r : result A) : outcome (lift r) = r.
Proof. reflexivity. Qed.

(** ** The shifted first-stage filters *)

Lemma shift_shifted (xs : list Q) : xs <> [] -> shifted xs (shift xs).
Proof.
  intros Hne. destruct xs as [|x xs]; [congruence|].
  unfold shifted, shift. simpl length. rewrite length_take, Nat.sub_0_r. simpl length.
  split; [lia|]. split; [reflexivity|].
  intros i Hi Hlt. destruct i as [|i]; [lia|].
  replace (S i - 1) with i by lia. simpl lookup at 1.
  apply lookup_take_lt. lia.
Qed.

Lemma deref_app_r (h t : heap) (k : nat) :
  deref (h ++ t) (length h + k) = deref t k.
Proof. unfold deref. rewrite lookup_app_r by lia. do 2 f_equal. lia. Qed.

Lemma shift_bank_app_r (h t : heap) (k : nat) :
  shift_bank (h ++ t) (length h + k) = app h <$> shift_bank t k.
Proof.
  unfold shift_bank, list_set0, list_set_from1, list_but_last.
  rewrite !deref_app_r, insert_app_r, !deref_app_r.
  destruct (deref (<[k:=_]> t) k); simpl; [reflexivity|].
  rewrite insert_app_r. reflexivity.
Qed.

Lemma shift_bank_at (t : heap) (k : nat) (xs : list Q) :
  t !! k = Some xs -> xs <> [] -> shift_bank t k = Ok (<[k := shift xs]> t).
Proof.
  intros Hk Hne. destruct xs as [|x xs]; [congruence|].
  assert (Hlt : k < length t) by (eapply lookup_lt_Some; eauto).
  unfold shift_bank, list_set0, list_set_from1, list_but_last, deref.
  rewrite Hk. simpl default. rewrite list_lookup_insert_eq by lia. simpl.
  rewrite list_insert_insert_eq. reflexivity.
Qed.

Lemma filter_bank_eq (w : Wavelet) (h : heap) :
  filter_bank w h =
    ((length h + 0, length h + 1, length h + 2, length h + 3),
     h ++ [dec_lo w; dec_hi w; rec_lo w; rec_hi w]).
Proof.
  unfold filter_bank, alloc. rewrite !length_app. simpl.
  rewrite <- !app_assoc. simpl.
  replace (length h + 1 + 1 + 1) with (length h + 3) by lia.
  replace (length h + 1 + 1) with (length h + 2) by lia.
  rewrite Nat.add_0_r. reflexivity.
Qed.

Lemma wf_wavelet_nonempty (w : Wavelet) :
  wf_wavelet w ->
  dec_lo w <> [] /\ dec_hi w <> [] /\ rec_lo w <> [] /\ rec_hi w <> [].
Proof.
  intros (H0 & H1 & H2 & H3).
  repeat split; intros E; rewrite E in *; simpl in *; lia.
Qed.

Lemma length_shift (xs : list Q) : xs <> [] -> length (shift xs) = length xs.
Proof. intros H. apply (shift_shifted xs H). Qed.

(** The heap and the wavelet [dt_first_stage] produces, in closed form. *)
Lemma dt_first_stage_heap_eq `{PyWt} (wavelet : WaveletSpec) (w : Wavelet) (h : heap) :
  as_Wavelet wavelet = Ok w -> wf_wavelet w ->
  dt_first_stage_heap wavelet h =
    Ok (w,
        mkWavelet (name w) (shift (dec_lo w)) (shift (dec_hi w))
          (shift (rec_lo w)) (shift (rec_hi w)),
        h ++ [shift (dec_lo w); shift (dec_hi w); shift (rec_lo w); shift (rec_hi w)]).
Proof.
  intros Hw Hwf. unfold dt_first_stage_heap. rewrite Hw.
  cbn [mbind result_bind]. rewrite filter_bank_eq.
  destruct (wf_wavelet_nonempty w Hwf) as (N1 & N2 & N3 & N4).
  destruct Hwf as (W0 & W1 & W2 & W3).
  cbn [foldM mbind result_bind].
  rewrite shift_bank_app_r, (shift_bank_at _ 0 (dec_lo w)) by (reflexivity || assumption).
  cbn [fmap result_fmap mbind result_bind].
  rewrite shift_bank_app_r, (shift_bank_at _ 1 (dec_hi w)) by (reflexivity || assumption).
  cbn [fmap result_fmap mbind result_bind].
  rewrite shift_bank_app_r, (shift_bank_at _ 2 (rec_lo w)) by (reflexivity || assumption).
  cbn [fmap result_fmap mbind result_bind].
  rewrite shift_bank_app_r, (shift_bank_at _ 3 (rec_hi w)) by (reflexivity || assumption).
  cbn [fmap result_fmap mbind result_bind].
  unfold Wavelet_custom. rewrite !deref_app_r. unfold deref. simpl.
  rewrite !length_take. 
  destruct (decide _) as [_|Hn]; [reflexivity|].
  exfalso. apply Hn. lia.
Qed.

Lemma dt_first_stage_eq `{PyWt} (wavelet : WaveletSpec) (w : Wavelet) :
  as_Wavelet wavelet = Ok w -> wf_wavelet w ->
  dt_first_stage wavelet =
    Ok (w, mkWavelet (name w) (shift (dec_lo w)) (shift (dec_hi w))
             (shift (rec_lo w)) (shift (rec_hi w))).
Proof.
  intros Hw Hwf. unfold dt_first_stage.
  rewrite (dt_first_stage_heap_eq wavelet w [] Hw Hwf). reflexivity.
Qed.

(** C4.  For a wavelet [w] (given as an object, or found by name),
    [dt_first_stage] returns [w] itself as the first wavelet and, as the
    second, a wavelet of the same name each of whose four filters is the
    corresponding filter of [w] moved one place up: the same length, 0 at
    index 0 and [input[i-1]] at every index [i >= 1], so the last tap is
    gone.  Nothing that existed before the call is touched: every list
    object already on the heap is the same afterwards, and the wavelets
    returned do not depend on the heap. *)
Theorem dt_first_stage_shifts_filters `{PyWt}
    (wavelet : WaveletSpec) (w : Wavelet) (h : heap) :
  as_Wavelet wavelet = Ok w -> wf_wavelet w ->
  exists wav2 h',
    dt_first_stage_heap wavelet h = Ok (w, wav2, h')
    /\ dt_first_stage wavelet = Ok (w, wav2)
    /\ name wav2 = name w
    /\ shifted (dec_lo w) (dec_lo wav2) /\ shifted (dec_hi w) (dec_hi wav2)
    /\ shifted (rec_lo w) (rec_lo wav2) /\ shifted (rec_hi w) (rec_hi wav2)
    /\ (forall l, l < length h -> h' !! l = h !! l).
Proof.
  intros Hw Hwf.
  destruct (wf_wavelet_nonempty w Hwf) as (N1 & N2 & N3 & N4).
  eexists _, _. split; [apply (dt_first_stage_heap_eq wavelet w h Hw Hwf)|].
  split; [apply (dt_first_stage_eq wavelet w Hw Hwf)|].
  split; [reflexivity|].
  repeat (split; [apply shift_shifted; assumption|]).
  intros l Hl. apply lookup_app_l. exact Hl.
Qed.

Lemma dt_first_stage_shifts_filters_witness :
  as_Wavelet (L := Reference.lazy) (ByName "lazy") = Ok Reference.lazy_wavelet
  /\ wf_wavelet Reference.lazy_wavelet
  /\ exists wav2 h',
       dt_first_stage_heap (L := Reference.lazy) (ByName "lazy") [[3; 4]%Q]
         = Ok (Reference.lazy_wavelet, wav2, h')
       /\ dt_first_stage (L := Reference.lazy) (ByName "lazy")
            = Ok (Reference.lazy_wavelet, wav2)
       /\ name wav2 = name Reference.lazy_wavelet
       /\ shifted (dec_lo Reference.lazy_wavelet) (dec_lo wav2)
       /\ shifted (dec_hi Reference.lazy_wavelet) (dec_hi wav2)
       /\ shifted (rec_lo Reference.lazy_wavelet) (rec_lo wav2)
       /\ shifted (rec_hi Reference.lazy_wavelet) (rec_hi wav2)
       /\ (forall l, l < length [[3; 4]%Q] -> h' !! l = [[3; 4]%Q] !! l).
Proof.
  assert (Hwf : wf_wavelet Reference.lazy_wavelet)
    by (unfold wf_wavelet; simpl; lia).
  split; [reflexivity|]. split; [exact Hwf|].
  apply (dt_first_stage_shifts_filters (H := Reference.lazy)
           (ByName "lazy") Reference.lazy_wavelet [[3; 4]%Q]).
  - reflexivity.
  - exact Hwf.
Defined.

(** ** Dual-tree synthesis *)

Lemma scale_sum_zip (q : Q) (xs ys : list Q) :
  Qmult q <$> ((fun p : Q * Q => (p.1 + p.2)%Q) <$> zip xs ys)
  = zip_with (fun r i => (q * (r + i))%Q) xs ys.
Proof.
  revert ys. induction xs as [|x xs IH]; intros [|y ys]; simpl; try reflexivity.
  f_equal. apply IH.
Qed.

(** C6.  With the wavelet arguments resolved, [dtsynthesis] raises
    [ValueError] on an empty coefficient list, returns the entry of a
    one-entry list as it is, and on two or more entries runs the single-tree
    synthesis on the real parts and on the imaginary parts and returns half
    the sum of the two reconstructions: element by element
    [0.5 * (real[k] + imag[k])] when the two have the same shape. *)
Theorem dtsynthesis_contract `{PyWt} (coeffs : list ndarray) (first_stage : WaveletSpec)
    (wavelet mode : string) (real_wavelet imag_wavelet real_first imag_first : Wavelet) :
  dualtree_wavelet wavelet = Ok (real_wavelet, imag_wavelet) ->
  dt_first_stage first_stage = Ok (real_first, imag_first) ->
  (coeffs = [] -> dtsynthesis coeffs first_stage wavelet mode = Raise ValueError)
  /\ (forall c, coeffs = [c] -> dtsynthesis coeffs first_stage wavelet mode = Ok c)
  /\ (2 <= length coeffs ->
      dtsynthesis coeffs first_stage wavelet mode =
        (real ← _dt_synthesis_tree (np_real <$> coeffs) real_first real_wavelet mode;
         imag ← _dt_synthesis_tree (np_imag <$> coeffs) imag_first imag_wavelet mode;
         sum ← arr_add real imag;
         Ok (F64 (arr_scale (1 # 2) sum)))
      /\ forall real imag,
          _dt_synthesis_tree (np_real <$> coeffs) real_first real_wavelet mode = Ok real ->
          _dt_synthesis_tree (np_imag <$> coeffs) imag_first imag_wavelet mode = Ok imag ->
          shape real = shape imag ->
          dtsynthesis coeffs first_stage wavelet mode =
            Ok (F64 (mk_array (shape real)
                       (zip_with (fun r i => ((1 # 2) * (r + i))%Q)
                          (data real) (data imag))))).
Proof.
  intros Hdt Hfs. unfold dtsynthesis. rewrite Hdt, Hfs. cbn [mbind result_bind].
  split; [intros ->; reflexivity|].
  split; [intros c ->; reflexivity|].
  intros Hlen.
  destruct coeffs as [|c0 [|c1 rest]]; simpl in Hlen; [lia | lia |].
  split; [reflexivity|].
  intros real imag Hr Hi Hshape. rewrite Hr, Hi. cbn [mbind result_bind].
  unfold arr_add, broadcast2. rewrite decide_True by exact Hshape.
  cbn [mbind result_bind]. unfold arr_scale. cbn [shape data].
  rewrite scale_sum_zip. reflexivity.
Qed.

Lemma dtsynthesis_contract_witness :
  let coeffs := [C128 (arr1 [(1, 1); (3, 3)]%Q); C128 (arr1 [(2, 2); (4, 4)]%Q)] in
  let w2 := mkWavelet "lazy" [0; 1]%Q [0; 0]%Q [0; 1]%Q [0; 0]%Q in
  dualtree_wavelet (PyWt := Reference.lazy) "lazy"
    = Ok (Reference.lazy_wavelet, Reference.lazy_wavelet)
  /\ dt_first_stage (L := Reference.lazy) (ByName "lazy")
     = Ok (Reference.lazy_wavelet, w2)
  /\ 2 <= length coeffs
  /\ dtsynthesis (L := Reference.lazy) coeffs (ByName "lazy") "lazy" "symmetric"
     = (real ← _dt_synthesis_tree (L := Reference.lazy) (np_real <$> coeffs)
                 Reference.lazy_wavelet Reference.lazy_wavelet "symmetric";
        imag ← _dt_synthesis_tree (L := Reference.lazy) (np_imag <$> coeffs)
                 w2 Reference.lazy_wavelet "symmetric";
        sum ← arr_add real imag;
        Ok (F64 (arr_scale (1 # 2) sum))).
Proof.
  intros coeffs w2.
  assert (H1 : dualtree_wavelet (PyWt := Reference.lazy) "lazy"
               = Ok (Reference.lazy_wavelet, Reference.lazy_wavelet)) by reflexivity.
  assert (H2 : dt_first_stage (L := Reference.lazy) (ByName "lazy")
               = Ok (Reference.lazy_wavelet, w2)) by reflexivity.
  assert (H3 : 2 <= length coeffs) by (simpl; lia).
  split; [exact H1|]. split; [exact H2|]. split; [exact H3|].
  exact (proj1 (proj2 (proj2 (dtsynthesis_contract (H := Reference.lazy) coeffs
           (ByName "lazy") "lazy" "symmetric" _ _ _ _ H1 H2)) H3)).
Defined.

(** ** The mask argument of the approximation *)

(** C10.  [dt_approx_rec] gives the same outcome and the same warnings
    whatever is passed as [mask], [None] included: the argument is never
    read.  Hence the loop of [dt_baseline] runs the same for any two masks;
    the mask only enters in the assignment after the loop. *)
Theorem dt_approx_rec_ignores_mask `{PyWt} (array : farray) (level : Level)
    (first_stage : WaveletSpec) (wavelet : string) :
  (forall m1 m2 : option barray,
      dt_approx_rec array level first_stage wavelet m1
      = dt_approx_rec array level first_stage wavelet m2)
  /\ (forall (n : nat) (regions : list Index) (mask1 mask2 : barray)
             (signal : farray) (background : ndarray),
        baseline_loop n array level first_stage wavelet regions mask1 signal background
        = baseline_loop n array level first_stage wavelet regions mask2 signal background).
Proof.
  split; [reflexivity|].
  intros n regions mask1 mask2. induction n as [|n IH]; intros signal background.
  - reflexivity.
  - cbn [baseline_loop].
    change (baseline_iteration array level first_stage wavelet regions mask1 signal)
      with (baseline_iteration array level first_stage wavelet regions mask2 signal).
    unfold mbind, M_bind.
    destruct (outcome (baseline_iteration array level first_stage wavelet regions mask2
                         signal)) as [[s b]|e]; [|reflexivity].
    rewrite IH. reflexivity.
Qed.

(** ** Where the rank of the input is checked *)

Lemma dtanalysis_level_0 `{PyWt} (data : farray) (first_stage : WaveletSpec)
    (wavelet mode : string) (p q : Wavelet * Wavelet) (w : Wavelet) :
  dualtree_wavelet wavelet = Ok p ->
  dt_first_stage first_stage = Ok q ->
  as_Wavelet first_stage = Ok w ->
  dtanalysis data first_stage wavelet (LInt 0) mode = Ok (Bare data).
Proof.
  intros Hp Hq Hw. unfold dtanalysis. rewrite Hp. destruct p as [rw iw].
  cbn [mbind result_bind]. rewrite Hq. destruct q as [rf imf].
  cbn [mbind result_bind]. rewrite Hw. reflexivity.
Qed.

(** [dt_max_level] takes [min(data.shape)]: it raises on a 0-d array. *)
Lemma dt_max_level_rank `{PyWt} (input : farray) (first_stage : WaveletSpec)
    (wavelet : string) (m : Z) :
  dt_max_level input first_stage wavelet = Ok m -> ndim input <> 0.
Proof.
  intros Hm. unfold dt_max_level in Hm.
  apply bind_Ok in Hm as ([rw iw] & _ & Hm).
  apply bind_Ok in Hm as (w & _ & Hm).
  apply bind_Ok in Hm as (n & Hmin & _).
  unfold ndim. destruct (shape input); [discriminate | simpl; lia].
Qed.

(** So whatever [dt_approx_rec] returns, it returns for a 1-D input. *)
Lemma dt_approx_rec_rank `{PyWt} (array : farray) (level : Level)
    (first_stage : WaveletSpec) (wavelet : string) (mask : option barray) (r : ndarray) :
  outcome (dt_approx_rec array level first_stage wavelet mask) = Ok r -> ndim array = 1.
Proof.
  intros Hr. unfold dt_approx_rec in Hr.
  destruct (2 <? ndim array) eqn:E2; [discriminate|].
  destruct (ndim array =? 2) eqn:E1; [discriminate|].
  apply Nat.ltb_ge in E2. apply Nat.eqb_neq in E1.
  apply outcome_bind_Ok in Hr as (w & _ & Hr).
  apply outcome_bind_Ok in Hr as (m & Hm & _). rewrite outcome_lift in Hm.
  apply dt_max_level_rank in Hm. lia.
Qed.

(** C3, as the code has it.  The rank is checked by [dt_approx_rec], before
    anything else: a 2-D array is refused with [NotImplementedError], an
    array of rank above 2 with [ValueError], and no warning is issued.
    [dtanalysis] does not look at the rank: at level 0, with its wavelet
    arguments resolved, it returns an input of any rank as it is. *)
Theorem rank_checked_by_dt_approx_rec `{PyWt} (array : farray) (level : Level)
    (first_stage : WaveletSpec) (wavelet : string) (mask : option barray) :
  (ndim array = 2 ->
   dt_approx_rec array level first_stage wavelet mask = raise NotImplementedError)
  /\ (2 < ndim array ->
      dt_approx_rec array level first_stage wavelet mask = raise ValueError)
  /\ (forall (mode : string) (p q : Wavelet * Wavelet) (w : Wavelet),
        dualtree_wavelet wavelet = Ok p ->
        dt_first_stage first_stage = Ok q ->
        as_Wavelet first_stage = Ok w ->
        dtanalysis array first_stage wavelet (LInt 0) mode = Ok (Bare array)).
Proof.
  split; [|split].
  - intros Hd. unfold dt_approx_rec. rewrite Hd. reflexivity.
  - intros Hd. unfold dt_approx_rec.
    destruct (2 <? ndim array) eqn:E; [reflexivity|].
    apply Nat.ltb_ge in E. lia.
  - intros mode p q w. apply dtanalysis_level_0.
Qed.

Lemma rank_checked_by_dt_approx_rec_witness :
  let a2 : farray := mk_array [2; 2] [0; 0; 0; 0]%Q in
  let a3 : farray := mk_array [1; 1; 2] [0; 0]%Q in
  (ndim a2 = 2 /\ 2 < ndim a3)
  /\ dt_approx_rec (L := Reference.lazy) a2 LMax (ByName "lazy") "lazy" None
     = raise NotImplementedError
  /\ dt_approx_rec (L := Reference.lazy) a3 LMax (ByName "lazy") "lazy" None
     = raise ValueError
  /\ dtanalysis (L := Reference.lazy) a3 (ByName "lazy") "lazy" (LInt 0) "symmetric"
     = Ok (Bare a3).
Proof.
  intros a2 a3.
  assert (H2 : ndim a2 = 2) by reflexivity.
  assert (H3 : 2 < ndim a3) by (unfold ndim; simpl; lia).
  split; [split; [exact H2 | exact H3]|].
  split; [|split].
  - exact (proj1 (rank_checked_by_dt_approx_rec (H := Reference.lazy) a2 LMax
                    (ByName "lazy") "lazy" None) H2).
  - exact (proj1 (proj2 (rank_checked_by_dt_approx_rec (H := Reference.lazy) a3 LMax
                    (ByName "lazy") "lazy" None)) H3).
  - refine (proj2 (proj2 (rank_checked_by_dt_approx_rec (H := Reference.lazy) a3 LMax
                    (ByName "lazy") "lazy" None)) "symmetric" _ _ _ _ _ _);
      reflexivity.
Defined.

(** [dtanalysis] handed a 2-D and a 3-D array, at level 0: both come back
    unchanged, no exception is raised. *)
Lemma dtanalysis_accepts_higher_rank :
  let a2 : farray := mk_array [2; 2] [0; 0; 0; 0]%Q in
  let a3 : farray := mk_array [1; 1; 2] [0; 0]%Q in
  ndim a2 = 2
  /\ dtanalysis (L := Reference.lazy) a2 (ByName "lazy") "lazy" (LInt 0) "symmetric"
     = Ok (Bare a2)
  /\ dtanalysis (L := Reference.lazy) a2 (ByName "lazy") "lazy" (LInt 0) "symmetric"
     <> Raise NotImplementedError
  /\ ndim a3 = 3
  /\ dtanalysis (L := Reference.lazy) a3 (ByName "lazy") "lazy" (LInt 0) "symmetric"
     = Ok (Bare a3)
  /\ dtanalysis (L := Reference.lazy) a3 (ByName "lazy") "lazy" (LInt 0) "symmetric"
     <> Raise ValueError.
Proof.
  intros a2 a3. repeat split; try reflexivity; discriminate.
Qed.

(** ** Boolean masks *)

Lemma fill_lookup_true {A : Type} (m : list bool) (xs : list A) (v z : A) (i : nat) :
  m !! i = Some true -> fill m xs v !! i = Some z -> z = v.
Proof.
  revert xs i. induction m as [|b m IH]; intros xs i Hm Hz.
  - rewrite lookup_nil in Hm. discriminate.
  - destruct xs as [|x xs]; [simpl in Hz; rewrite lookup_nil in Hz; discriminate|].
    destruct i as [|i]; simpl in *.
    + injection Hm as ->. injection Hz as <-. reflexivity.
    + eapply IH; eassumption.
Qed.

Lemma length_scatter {A : Type} (m : list bool) (xs vals : list A) :
  length (scatter m xs vals) = length xs.
Proof.
  revert xs vals. induction m as [|b m IH]; intros [|x xs] vals; simpl; try reflexivity.
  destruct b; [destruct vals|]; simpl; rewrite IH; reflexivity.
Qed.

Lemma scatter_nil {A : Type} (m : list bool) (xs : list A) : scatter m xs [] = xs.
Proof.
  revert xs. induction m as [|b m IH]; intros [|x xs]; simpl; try reflexivity.
  destruct b; rewrite IH; reflexivity.
Qed.

Lemma select_fmap {A B : Type} (f : A -> B) (m : list bool) (xs : list A) :
  f <$> select m xs = select m (f <$> xs).
Proof.
  revert xs. induction m as [|b m IH]; intros [|x xs]; simpl; try reflexivity.
  destruct b; simpl; rewrite IH; reflexivity.
Qed.

Lemma length_select {A : Type} (m : list bool) (xs : list A) :
  length m <= length xs -> length (select m xs) = count_true m.
Proof.
  unfold count_true. revert xs.
  induction m as [|b m IH]; intros [|x xs] Hlen; simpl in *; try reflexivity; try lia.
  destruct b.
  - rewrite filter_cons_True by reflexivity. simpl. rewrite IH by lia. reflexivity.
  - rewrite filter_cons_False by discriminate. apply IH. lia.
Qed.

(** After [xs[m] = vs[m]] a cell holds what it held, or the cell of [vs]
    at a [True] position of [m]. *)
Lemma scatter_select {A : Type} (m : list bool) (xs vs : list A) (i : nat) (x : A) :
  xs !! i = Some x ->
  exists y, scatter m xs (select m vs) !! i = Some y
            /\ (y = x \/ (m !! i = Some true /\ vs !! i = Some y)).
Proof.
  revert xs vs i. induction m as [|b m IH]; intros xs vs i Hx.
  - simpl. eauto.
  - destruct xs as [|x0 xs]; [rewrite lookup_nil in Hx; discriminate|].
    destruct vs as [|v vs].
    + simpl. replace (if b then x0 :: scatter m xs [] else x0 :: scatter m xs [])
        with (x0 :: xs) by (rewrite scatter_nil; destruct b; reflexivity).
      eauto.
    + destruct b; simpl.
      * destruct i as [|i]; simpl in *; [eauto|]. apply IH. exact Hx.
      * destruct i as [|i]; simpl in *; [eauto|]. apply IH. exact Hx.
Qed.

(** ** The iterations of the baseline *)

Lemma norm_index_lt (n : nat) (z : Z) (k : nat) : norm_index n z = Ok k -> k < n.
Proof.
  unfold norm_index. destruct (_ && _)%bool eqn:E; [|discriminate].
  intros [= <-]. apply andb_true_iff in E as [E1 E2]. lia.
Qed.

Lemma norm_bound_le (n dflt : nat) (b : option Z) :
  dflt <= n -> norm_bound n dflt b <= n.
Proof. intros Hd. unfold norm_bound. destruct b; lia. Qed.

Lemma splice_length (xs mid : list Q) (a b : nat) :
  length mid = b -> a + b <= length xs ->
  length (take a xs ++ mid ++ drop (a + b) xs) = length xs.
Proof.
  intros Hm Hle. rewrite !length_app, length_take, length_drop. lia.
Qed.

Lemma splice_lookup (xs mid : list Q) (a b i : nat) :
  length mid = b -> a + b <= length xs -> i < a \/ a + b <= i ->
  (take a xs ++ mid ++ drop (a + b) xs) !! i = xs !! i.
Proof.
  intros Hm Hle [Hi|Hi].
  - rewrite lookup_app_l by (rewrite length_take; lia).
    apply lookup_take_lt. exact Hi.
  - rewrite lookup_app_r by (rewrite length_take; lia).
    rewrite lookup_app_r by (rewrite length_take; lia).
    rewrite lookup_drop, length_take. f_equal. lia.
Qed.

Lemma pin_spec (n : nat) (array signal s' : farray) (index : Index) :
  wf1 n array -> wf1 n signal -> pin array signal index = Ok s' ->
  wf1 n s' /\ forall i, ~ covers n index i -> data s' !! i = data signal !! i.
Proof.
  intros [Ha La] [Hs Ls] Hpin. destruct index as [z|start stop]; simpl in Hpin.
  - unfold getitem, setitem, stride in Hpin. rewrite Ha, Hs in Hpin.
    cbn [tail prod_list foldr] in Hpin.
    destruct (norm_index n z) as [k|e] eqn:Ek; [|discriminate].
    cbn [mbind result_bind shape data] in Hpin.
    rewrite decide_True in Hpin by reflexivity.
    injection Hpin as <-. pose proof (norm_index_lt _ _ _ Ek) as Hk.
    rewrite !Nat.mul_1_r. unfold wf1. cbn [shape data].
    assert (Hmid : length (take 1 (drop k (data array))) = 1)
      by (rewrite length_take, length_drop; lia).
    split; [split; [reflexivity|]|].
    + rewrite splice_length; [exact Ls | exact Hmid | lia].
    + intros i Hc. simpl in Hc. apply splice_lookup; [exact Hmid | lia |].
      assert (i <> k) by (intros ->; apply Hc; exact Ek). lia.
  - unfold getslice, setslice, stride in Hpin. rewrite Ha, Hs in Hpin.
    cbn [tail prod_list foldr mbind result_bind shape data] in Hpin.
    rewrite decide_True in Hpin by reflexivity.
    injection Hpin as <-.
    pose proof (norm_bound_le n 0 start ltac:(lia)) as Hlo.
    pose proof (norm_bound_le n n stop ltac:(lia)) as Hhi.
    set (lo := norm_bound n 0 start) in *. set (hi := norm_bound n n stop) in *.
    rewrite !Nat.mul_1_r. unfold wf1. cbn [shape data].
    assert (Hmid : length (take (hi - lo) (drop lo (data array))) = hi - lo)
      by (rewrite length_take, length_drop; lia).
    split; [split; [reflexivity|]|].
    + rewrite splice_length; [exact Ls | exact Hmid | lia].
    + intros i Hc. simpl in Hc. fold lo hi in Hc.
      apply splice_lookup; [exact Hmid | lia | lia].
Qed.

Lemma foldM_pin_spec (n : nat) (array : farray) (regions : list Index) :
  wf1 n array ->
  forall signal s', wf1 n signal -> foldM (pin array) signal regions = Ok s' ->
  wf1 n s' /\ forall i, (forall r, r ∈ regions -> ~ covers n r i) ->
                        data s' !! i = data signal !! i.
Proof.
  intros Hwa. induction regions as [|r regions IH]; intros signal s' Hws Hfold.
  - simpl in Hfold. injection Hfold as <-. split; [exact Hws | reflexivity].
  - simpl in Hfold. apply bind_Ok in Hfold as (s1 & Hpin & Hfold).
    destruct (pin_spec n array signal s1 r Hwa Hws Hpin) as [Hw1 Hkeep1].
    destruct (IH s1 s' Hw1 Hfold) as [Hw' Hkeep'].
    split; [exact Hw'|]. intros i Hnc.
    rewrite Hkeep' by (intros r' Hr'; apply Hnc; right; exact Hr').
    apply Hkeep1. apply Hnc. left.
Qed.

Lemma Qgtb_le (x y : Q) : Qgtb x y = true -> (y <= x)%Q.
Proof.
  unfold Qgtb. intros Hg. apply negb_true_iff in Hg.
  destruct (Qlt_le_dec y x) as [Hlt|Hle]; [apply Qlt_le_weak; exact Hlt|].
  apply Qle_bool_iff in Hle. congruence.
Qed.

Lemma Cgtb_le (x : Q) (c : C) : Cgtb (of_float x) c = true -> (c.1 <= x)%Q.
Proof.
  unfold Cgtb, of_float. simpl. intros Hg. apply orb_true_iff in Hg as [Hg|Hg].
  - apply Qgtb_le. exact Hg.
  - apply andb_true_iff in Hg as [He _]. apply Qeq_bool_iff in He.
    rewrite He. apply Qle_refl.
Qed.

(** The shape of a comparison that both operands can then be indexed with
    forces the cell-by-cell case of broadcasting. *)
Lemma broadcast2_same_shape {A B : Type} (a : narray A) (b : narray B)
    (s : list nat) (ps : list (A * B)) :
  broadcast2 a b = Ok (s, ps) -> shape a = s -> shape b = s ->
  ps = zip (data a) (data b).
Proof.
  intros Hb Ha Hs. unfold broadcast2 in Hb.
  rewrite decide_True in Hb by congruence. congruence.
Qed.

Lemma clamp_core (md : list bool) (sd vs : list Q) :
  (forall i x v, md !! i = Some true -> sd !! i = Some x -> vs !! i = Some v ->
                 (v <= x)%Q) ->
  forall i x, sd !! i = Some x ->
  exists y, scatter md sd (select md vs) !! i = Some y /\ (y <= x)%Q.
Proof.
  intros Hle i x Hx.
  destruct (scatter_select md sd vs i x Hx) as (y & Hy & [-> | [Hm Hv]]).
  - exists x. split; [exact Hy | apply Qle_refl].
  - exists y. split; [exact Hy | eapply Hle; eassumption].
Qed.

Lemma lookup_gt_mask {A B : Type} (f : A * B -> bool) (xs : list A) (ys : list B)
    (i : nat) (x : A) (y : B) :
  (f <$> zip xs ys) !! i = Some true -> xs !! i = Some x -> ys !! i = Some y ->
  f (x, y) = true.
Proof.
  rewrite list_lookup_fmap. intros Hm Hx Hy.
  destruct (zip xs ys !! i) as [p|] eqn:Ez; [|discriminate].
  simpl in Hm. injection Hm as Hm.
  destruct p as [x' y']. apply lookup_zip_Some in Ez as [Hx' Hy'].
  rewrite Hx in Hx'. rewrite Hy in Hy'.
  injection Hx' as <-. injection Hy' as <-. exact Hm.
Qed.

Lemma clamp_spec (n : nat) (signal s' : farray) (background : ndarray) :
  wf1 n signal -> clamp signal background = Ok s' ->
  wf1 n s' /\ forall i x, data signal !! i = Some x ->
                          exists y, data s' !! i = Some y /\ (y <= x)%Q.
Proof.
  intros [Hs Ls] Hc. unfold clamp in Hc.
  apply bind_Ok in Hc as (rhs & Hrhs & Hc).
  apply bind_Ok in Hrhs as (m & Hm & Hsel).
  rewrite Hm in Hc. cbn [mbind result_bind] in Hc.
  unfold mask_select in Hsel. destruct (decide (nd_shape background = shape m)) as [Hbm|];
    [|discriminate].
  unfold mask_assign in Hc. destruct (decide (shape signal = shape m)) as [Hsm|];
    [|discriminate].
  destruct background as [b|b]; simpl in Hm, Hbm.
  - apply bind_Ok in Hm as ([s ps] & Hbr & Hm). injection Hm as <-.
    cbn [shape data] in *.
    pose proof (broadcast2_same_shape _ _ _ _ Hbr Hsm Hbm) as ->.
    injection Hsel as <-. cbn [nd_cdata nd_shape arr1 shape data] in Hc.
    set (md := (fun p : Q * Q => Qgtb p.1 p.2) <$> zip (data signal) (data b)) in *.
    assert (Hlen : length md <= length (data b)).
    { unfold md. rewrite length_fmap, length_zip. lia. }
    rewrite decide_True in Hc by (rewrite (length_select md _ Hlen); reflexivity).
    injection Hc as <-. unfold wf1. cbn [shape data].
    rewrite length_scatter. split; [split; [exact Hs | exact Ls]|].
    rewrite <- list_fmap_compose.
    replace (fst ∘ (fun q : Q => (q, 0%Q))) with (@id Q) by reflexivity.
    rewrite list_fmap_id. apply clamp_core.
    intros i x v Hmi Hx Hv. apply Qgtb_le.
    apply (lookup_gt_mask (fun p => Qgtb p.1 p.2) _ _ i x v Hmi Hx Hv).
  - apply bind_Ok in Hm as ([s ps] & Hbr & Hm). injection Hm as <-.
    cbn [shape data] in *.
    pose proof (broadcast2_same_shape _ _ _ _ Hbr Hsm Hbm) as ->.
    injection Hsel as <-. cbn [nd_cdata nd_shape arr1 shape data] in Hc.
    set (md := (fun p : Q * C => Cgtb (of_float p.1) p.2) <$> zip (data signal) (data b))
      in *.
    assert (Hlen : length md <= length (data b)).
    { unfold md. rewrite length_fmap, length_zip. lia. }
    rewrite decide_True in Hc by (rewrite (length_select md _ Hlen); reflexivity).
    injection Hc as <-. unfold wf1. cbn [shape data].
    rewrite length_scatter. split; [split; [exact Hs | exact Ls]|].
    rewrite select_fmap. apply clamp_core.
    intros i x v Hmi Hx Hv. rewrite list_lookup_fmap in Hv.
    apply fmap_Some in Hv as (c & Ec & ->). apply Cgtb_le.
    apply (lookup_gt_mask (fun p => Cgtb (of_float p.1) p.2) _ _ i x c Hmi Hx Ec).
Qed.

(** C9.  One pass of the loop of [dt_baseline] over a 1-D working signal:
    at every sample that no entry of [background_regions] designates, the
    value after the pass is at most the value before it.  (This holds for
    masked samples as well: the mask plays no part in the loop.) *)
Theorem baseline_iteration_monotone `{PyWt} (n : nat) (array signal signal' : farray)
    (background : ndarray) (level : Level) (first_stage : WaveletSpec)
    (wavelet : string) (background_regions : list Index) (mask : barray) :
  wf1 n array -> wf1 n signal ->
  outcome (baseline_iteration array level first_stage wavelet background_regions
             mask signal) = Ok (signal', background) ->
  wf1 n signal'
  /\ forall i x,
      (forall r, r ∈ background_regions -> ~ covers n r i) ->
      data signal !! i = Some x ->
      exists y, data signal' !! i = Some y /\ (y <= x)%Q.
Proof.
  intros Hwa Hws Hit. unfold baseline_iteration in Hit.
  apply outcome_bind_Ok in Hit as (s1 & Hpin & Hit). rewrite outcome_lift in Hpin.
  apply outcome_bind_Ok in Hit as (bg & _ & Hit).
  apply outcome_bind_Ok in Hit as (s2 & Hclamp & Hit). rewrite outcome_lift in Hclamp.
  injection Hit as <- <-.
  destruct (foldM_pin_spec n array background_regions Hwa signal s1 Hws Hpin)
    as [Hw1 Hkeep].
  destruct (clamp_spec n s1 s2 bg Hw1 Hclamp) as [Hw2 Hdown].
  split; [exact Hw2|]. intros i x Hnc Hx.
  apply Hdown. rewrite Hkeep by exact Hnc. exact Hx.
Qed.

Lemma baseline_iteration_monotone_witness :
  let array : farray := arr1 [1; 2; 3; 4; 5; 6; 7; 8]%Q in
  let signal : farray := arr1 [1; 9; 3; 9; 5; 9; 7; 8]%Q in
  let regions := [Idx 0; Slice (Some 6%Z) None] in
  let mask : barray := arr1 (replicate 8 false) in
  wf1 8 array /\ wf1 8 signal
  /\ exists signal' background,
      outcome (baseline_iteration (L := Reference.lazy) array (LInt 1) (ByName "lazy")
                 "lazy" regions mask signal) = Ok (signal', background)
      /\ wf1 8 signal'
      /\ forall i x,
          (forall r, r ∈ regions -> ~ covers 8 r i) ->
          data signal !! i = Some x ->
          exists y, data signal' !! i = Some y /\ (y <= x)%Q.
Proof.
  intros array signal regions mask.
  assert (Hwa : wf1 8 array) by (split; reflexivity).
  assert (Hws : wf1 8 signal) by (split; reflexivity).
  split; [exact Hwa|]. split; [exact Hws|].
  eexists _, _. split; [vm_compute; reflexivity|].
  eapply (baseline_iteration_monotone (H := Reference.lazy) 8 array signal _ _
            (LInt 1) (ByName "lazy") "lazy" regions mask Hwa Hws).
  vm_compute. reflexivity.
Defined.

(** C8.  Whatever [dt_baseline] returns for a boolean mask of the shape of
    the input has the shape of the mask and is exactly 0 wherever the mask
    is [True], whatever the input holds there and however many passes were
    asked for. *)
Theorem dt_baseline_zero_under_mask `{PyWt} (array : farray) (max_iter : Z)
    (level : Level) (first_stage : WaveletSpec) (wavelet : string)
    (background_regions : list Index) (mask : barray) (r : ndarray) :
  shape mask = shape array ->
  outcome (dt_baseline array max_iter level first_stage wavelet background_regions
             (Some mask)) = Ok r ->
  nd_shape r = shape mask
  /\ forall i z, data mask !! i = Some true -> nd_cdata r !! i = Some z ->
                 z = (0%Q, 0%Q).
Proof.
  intros _ Hb. unfold dt_baseline in Hb.
  apply outcome_bind_Ok in Hb as ([s b] & _ & Hfill). rewrite outcome_lift in Hfill.
  unfold mask_fill in Hfill.
  destruct (decide (nd_shape b = shape mask)) as [Hsh|]; [|discriminate].
  injection Hfill as <-. destruct b as [a|a]; simpl in *.
  - split; [exact Hsh|]. intros i z Hm Hz. rewrite list_lookup_fmap in Hz.
    apply fmap_Some in Hz as (q & Hq & ->).
    rewrite (fill_lookup_true _ _ _ _ _ Hm Hq). reflexivity.
  - split; [exact Hsh|]. intros i z Hm Hz.
    apply (fill_lookup_true _ _ _ _ _ Hm Hz).
Qed.

Lemma dt_baseline_zero_under_mask_witness :
  let array : farray := arr1 [1; 9; 3; 9; 5; 9; 7; 8]%Q in
  let mask : barray := arr1 [true; false; false; false; true; false; false; true] in
  shape mask = shape array
  /\ exists r,
      outcome (dt_baseline (L := Reference.lazy) array 2 (LInt 1) (ByName "lazy") "lazy"
                 [Idx 0; Slice (Some 6%Z) None] (Some mask)) = Ok r
      /\ nd_cdata r !! 4 = Some (0%Q, 0%Q)
      /\ nd_shape r = shape mask
      /\ forall i z, data mask !! i = Some true -> nd_cdata r !! i = Some z ->
                     z = (0%Q, 0%Q).
Proof.
  intros array mask.
  assert (Hsh : shape mask = shape array) by reflexivity.
  split; [exact Hsh|].
  eexists. split; [vm_compute; reflexivity|].
  split; [reflexivity|].
  eapply (dt_baseline_zero_under_mask (H := Reference.lazy) array 2 (LInt 1)
            (ByName "lazy") "lazy" [Idx 0; Slice (Some 6%Z) None] mask _ Hsh).
  vm_compute. reflexivity.
Defined.

(** ** Level 0

    At level 0 [dtanalysis] hands back the array itself, not a one-entry
    list; [dt_approx_rec] indexes what it gets as if it were the list. *)

Lemma resolve_level_bounds (level : Level) (max_level lvl : Z) :
  outcome (resolve_level level max_level) = Ok lvl ->
  (lvl <= max_level)%Z /\ (forall l, level = LInt l -> (lvl <= l)%Z).
Proof.
  destruct level as [|l]; simpl.
  - intros [= <-]. split; [lia | discriminate].
  - destruct (max_level <? l)%Z eqn:E; simpl; intros [= <-].
    + apply Z.ltb_lt in E. split; [lia | intros ? [= <-]; lia].
    + apply Z.ltb_ge in E. split; [lia | intros ? [= <-]; lia].
Qed.

Lemma dtanalysis_nonpositive `{PyWt} (data : farray) (first_stage : WaveletSpec)
    (wavelet mode : string) (lvl : Z) (c : Analysis) :
  (lvl <= 0)%Z ->
  dtanalysis data first_stage wavelet (LInt lvl) mode = Ok c -> c = Bare data.
Proof.
  intros Hl Hd. unfold dtanalysis in Hd.
  apply bind_Ok in Hd as ([rw iw] & _ & Hd).
  apply bind_Ok in Hd as ([rf imf] & _ & Hd).
  apply bind_Ok in Hd as (w & _ & Hd).
  destruct (lvl <? 0)%Z eqn:E0; [discriminate|].
  destruct (lvl =? 0)%Z eqn:E1; [congruence|].
  apply Z.ltb_ge in E0. apply Z.eqb_neq in E1. lia.
Qed.

(** The single-tree synthesis asks for [len()] of the last coefficient. *)
Lemma synthesis_tree_unsized_detail `{PyWt} (coeffs : list farray)
    (first_stage wavelet : Wavelet) (mode : string) (d r : farray) :
  last coeffs = Some d -> shape d = [] ->
  _dt_synthesis_tree coeffs first_stage wavelet mode <> Ok r.
Proof.
  intros Hlast Hd Ht. unfold _dt_synthesis_tree in Ht. rewrite Hlast in Ht.
  cbn [mbind result_bind] in Ht.
  apply bind_Ok in Ht as (late & _ & Ht).
  apply bind_Ok in Ht as (n_late & _ & Ht).
  apply bind_Ok in Ht as (n_detail & Hlen & _).
  unfold py_len in Hlen. rewrite Hd in Hlen. discriminate.
Qed.

(** A list of 0-d entries gets through [dtsynthesis] only if it has one
    entry. *)
Lemma dtsynthesis_scalars `{PyWt} (coeffs : list ndarray) (first_stage : WaveletSpec)
    (wavelet mode : string) (r : ndarray) :
  Forall (fun z => nd_shape z = []) coeffs ->
  dtsynthesis coeffs first_stage wavelet mode = Ok r -> coeffs = [r].
Proof.
  intros Hall Hs. unfold dtsynthesis in Hs.
  apply bind_Ok in Hs as ([rw iw] & _ & Hs).
  apply bind_Ok in Hs as ([rf imf] & _ & Hs).
  destruct coeffs as [|c0 [|c1 rest]]; [discriminate | congruence |].
  exfalso. apply bind_Ok in Hs as (real & Hreal & _).
  destruct (proj2 (last_is_Some (c0 :: c1 :: rest)) ltac:(discriminate)) as [z Hlast].
  assert (Hz : nd_shape z = []).
  { apply last_Some_elem_of in Hlast.
    rewrite Forall_forall in Hall. apply Hall. exact Hlast. }
  eapply (synthesis_tree_unsized_detail _ _ _ _ (np_real z)); [| |exact Hreal].
  - rewrite fmap_last, Hlast. reflexivity.
  - destruct z; exact Hz.
Qed.

(** What [dt_approx_rec] does with an array in place of the list. *)
Lemma approx_rec_on_bare `{PyWt} (xs : list Q) (first_stage : WaveletSpec)
    (wavelet : string) (app : ndarray) (det : Analysis) (zeroed : list ndarray)
    (reconstructed r : ndarray) :
  analysis_head (Bare (arr1 xs)) = Ok app ->
  analysis_tail (Bare (arr1 xs)) = Ok det ->
  (dets ← analysis_iter det; Ok (fmap (M:=list) zeros_like dets)) = Ok zeroed ->
  dtsynthesis (app :: zeroed) first_stage wavelet EXTENSION_MODE = Ok reconstructed ->
  reconcile 1 (arr1 xs) reconstructed = Ok r ->
  length xs = 1 /\ r = F64 (mk_array [] xs).
Proof.
  intros Hhead Htail Hzero Hsyn Hrec.
  unfold analysis_head, getitem, arr1, stride in Hhead.
  cbn [shape data tail prod_list foldr] in Hhead.
  apply fmap_Ok in Hhead as (a0 & Hhead & ->).
  apply bind_Ok in Hhead as (k & Hk & Hhead). injection Hhead as <-.
  pose proof (norm_index_lt _ _ _ Hk) as Hn.
  unfold norm_index in Hk. simpl in Hk.
  destruct (0 <? Z.of_nat (length xs))%Z; [|discriminate]. injection Hk as <-.
  unfold analysis_tail, getslice, arr1, stride in Htail.
  cbn [shape data tail prod_list foldr] in Htail. injection Htail as <-.
  unfold analysis_iter, iterate in Hzero. cbn [shape data mbind result_bind] in Hzero.
  injection Hzero as <-.
  apply dtsynthesis_scalars in Hsyn.
  - injection Hsyn as <- Hnil.
    apply (f_equal length) in Hnil. rewrite !length_fmap, length_seq in Hnil.
    simpl in Hnil.
    assert (Hlen : length xs = 1) by lia.
    split; [exact Hlen|].
    destruct xs as [|x [|? ?]]; simpl in Hlen; try lia.
    cbv in Hrec. injection Hrec as <-. reflexivity.
  - constructor; [reflexivity|].
    rewrite !Forall_fmap. apply Forall_forall. intros j _. reflexivity.
Qed.

Lemma approx_rec_of_level_leq_0 `{PyWt} (xs : list Q) (level : Level)
    (first_stage : WaveletSpec) (wavelet : string) (mask : option barray) (r : ndarray) :
  (forall w m lvl, as_Wavelet first_stage = Ok w ->
                   dt_max_level (arr1 xs) (ByObject w) wavelet = Ok m ->
                   outcome (resolve_level level m) = Ok lvl -> (lvl <= 0)%Z) ->
  outcome (dt_approx_rec (arr1 xs) level first_stage wavelet mask) = Ok r ->
  length xs = 1 /\ r = F64 (mk_array [] xs).
Proof.
  intros Hlvl Hr. unfold dt_approx_rec in Hr.
  change (ndim (arr1 xs)) with 1 in Hr. cbn [Nat.ltb Nat.leb Nat.eqb] in Hr.
  apply outcome_bind_Ok in Hr as (w & Hw & Hr). rewrite outcome_lift in Hw.
  apply outcome_bind_Ok in Hr as (m & Hm & Hr). rewrite outcome_lift in Hm.
  apply outcome_bind_Ok in Hr as (lvl & Hres & Hr).
  apply outcome_bind_Ok in Hr as (coeffs & Han & Hr). rewrite outcome_lift in Han.
  apply outcome_bind_Ok in Hr as (app & Hhead & Hr). rewrite outcome_lift in Hhead.
  apply outcome_bind_Ok in Hr as (det & Htail & Hr). rewrite outcome_lift in Htail.
  apply outcome_bind_Ok in Hr as (zeroed & Hzero & Hr). rewrite outcome_lift in Hzero.
  apply outcome_bind_Ok in Hr as (reconstructed & Hsyn & Hr).
  rewrite outcome_lift in Hsyn. rewrite outcome_lift in Hr.
  apply dtanalysis_nonpositive in Han; [|eapply Hlvl; eassumption]. subst coeffs.
  eapply approx_rec_on_bare; eassumption.
Qed.

Lemma log_lift_bind {A B : Type} (r : result A) (f : A -> M B) :
  log (lift r ≫= f) = match r with Ok a => log (f a) | Raise _ => [] end.
Proof. destruct r; reflexivity. Qed.

Lemma log_bind {A B : Type} (m : M A) (f : A -> M B) :
  log (m ≫= f) = match outcome m with
                 | Ok a => log m ++ log (f a)
                 | Raise _ => log m
                 end.
Proof. unfold mbind, M_bind. destruct (outcome m); reflexivity. Qed.

(** The warnings of a call of [dt_approx_rec] are those of the resolution
    of the level. *)
Lemma dt_approx_rec_log `{PyWt} (array : farray) (level : Level)
    (first_stage : WaveletSpec) (wavelet : string) (mask : option barray)
    (w : Wavelet) (m : Z) :
  ndim array < 2 ->
  as_Wavelet first_stage = Ok w ->
  dt_max_level array (ByObject w) wavelet = Ok m ->
  log (dt_approx_rec array level first_stage wavelet mask) = log (resolve_level level m).
Proof.
  intros Hd Hw Hm. unfold dt_approx_rec.
  destruct (2 <? ndim array) eqn:E2; [apply Nat.ltb_lt in E2; lia|].
  destruct (ndim array =? 2) eqn:E1; [apply Nat.eqb_eq in E1; lia|].
  rewrite log_lift_bind, Hw, log_lift_bind, Hm, log_bind.
  destruct (outcome (resolve_level level m)) as [lvl|e]; [|reflexivity].
  rewrite <- (app_nil_r (log (resolve_level level m))) at 2. f_equal.
  repeat (rewrite log_lift_bind;
          match goal with
          | |- context [match ?r with Ok _ => _ | Raise _ => _ end] =>
              destruct r; [|reflexivity]
          end).
  reflexivity.
Qed.

(** A single sample at level 0 comes back as a 0-d value. *)
Lemma dt_approx_rec_single_sample `{PyWt} (x : Q) (level : Level)
    (first_stage : WaveletSpec) (wavelet : string) (mask : option barray)
    (w : Wavelet) (m : Z) (p : Wavelet * Wavelet) :
  as_Wavelet first_stage = Ok w -> wf_wavelet w ->
  dualtree_wavelet wavelet = Ok p ->
  dt_max_level (arr1 [x]) (ByObject w) wavelet = Ok m ->
  outcome (resolve_level level m) = Ok 0%Z ->
  outcome (dt_approx_rec (arr1 [x]) level first_stage wavelet mask)
  = Ok (F64 (scalar x)).
Proof.
  intros Hw Hwf Hp Hm Hres. unfold dt_approx_rec.
  change (ndim (arr1 [x])) with 1. cbn [Nat.ltb Nat.leb Nat.eqb].
  rewrite outcome_bind, outcome_lift, Hw.
  rewrite outcome_bind, outcome_lift, Hm.
  rewrite outcome_bind, Hres.
  pose proof (dt_first_stage_eq (ByObject w) w eq_refl Hwf) as Hfs.
  rewrite outcome_bind, outcome_lift.
  rewrite (dtanalysis_level_0 (arr1 [x]) (ByObject w) wavelet EXTENSION_MODE p _ w Hp Hfs eq_refl).
  rewrite outcome_bind, outcome_lift. cbn [analysis_head].
  change (getitem (arr1 [x]) 0) with (Ok (scalar x)). cbn [fmap result_fmap].
  rewrite outcome_bind, outcome_lift. cbn [analysis_tail].
  change (getslice (arr1 [x]) (Some 1%Z) None) with (Ok (mk_array [0] (@nil Q))).
  cbn [fmap result_fmap].
  rewrite outcome_bind, outcome_lift. cbn [analysis_iter Nat.eqb].
  change (iterate (mk_array [0] (@nil Q))) with (Ok (@nil farray)).
  cbn [mbind result_bind fmap list_fmap].
  rewrite outcome_bind, outcome_lift. unfold dtsynthesis.
  rewrite Hp. destruct p as [rw iw]. cbn [mbind result_bind]. rewrite Hfs.
  cbn [mbind result_bind]. rewrite outcome_lift. reflexivity.
Qed.

(** C2, as the code has it.  Called at level 0 on a 1-D array,
    [dt_approx_rec] never returns that array: what it returns, if anything,
    is a 0-d value for a one-sample array, and with two samples or more it
    raises.  [dtanalysis], with its wavelet arguments resolved, does return
    its input unchanged at level 0, but as the bare array and not as a
    one-entry list; [dt_approx_rec] takes its first sample for the
    approximation and each further sample for a detail array, and the
    synthesis asks for [len()] of a 0-d detail. *)
Theorem dt_approx_rec_level_0 `{PyWt} (xs : list Q) (first_stage : WaveletSpec)
    (wavelet : string) (mask : option barray) :
  (forall r, outcome (dt_approx_rec (arr1 xs) (LInt 0) first_stage wavelet mask) = Ok r ->
             length xs = 1 /\ r = F64 (mk_array [] xs))
  /\ (2 <= length xs ->
      exists e, outcome (dt_approx_rec (arr1 xs) (LInt 0) first_stage wavelet mask)
                = Raise e)
  /\ outcome (dt_approx_rec (arr1 xs) (LInt 0) first_stage wavelet mask)
     <> Ok (F64 (arr1 xs))
  /\ (forall (mode : string) (p q : Wavelet * Wavelet) (w : Wavelet),
        dualtree_wavelet wavelet = Ok p ->
        dt_first_stage first_stage = Ok q ->
        as_Wavelet first_stage = Ok w ->
        dtanalysis (arr1 xs) first_stage wavelet (LInt 0) mode = Ok (Bare (arr1 xs))).
Proof.
  assert (Hmain : forall r,
             outcome (dt_approx_rec (arr1 xs) (LInt 0) first_stage wavelet mask) = Ok r ->
             length xs = 1 /\ r = F64 (mk_array [] xs)).
  { intros r. apply approx_rec_of_level_leq_0.
    intros w m lvl _ _ Hres.
    apply (proj2 (resolve_level_bounds _ _ _ Hres) 0%Z eq_refl). }
  split; [exact Hmain|]. split; [|split].
  - intros Hlen.
    destruct (outcome (dt_approx_rec (arr1 xs) (LInt 0) first_stage wavelet mask))
      as [r|e] eqn:E; [|eauto].
    destruct (Hmain r eq_refl) as [H1 _]. lia.
  - intros E. destruct (Hmain _ E) as [_ Hr]. discriminate.
  - intros mode p q w. apply dtanalysis_level_0.
Qed.

Lemma dt_approx_rec_level_0_witness :
  let zeros := replicate 100 0%Q in
  2 <= length zeros
  /\ (exists e, outcome (dt_approx_rec (L := Reference.lazy) (arr1 zeros) (LInt 0)
                           (ByName "lazy") "lazy" None) = Raise e)
  /\ outcome (dt_approx_rec (L := Reference.lazy) (arr1 zeros) (LInt 0)
                (ByName "lazy") "lazy" None) = Raise TypeError
  /\ dtanalysis (L := Reference.lazy) (arr1 zeros) (ByName "lazy") "lazy" (LInt 0)
       "symmetric" = Ok (Bare (arr1 zeros)).
Proof.
  intros zeros.
  assert (Hlen : 2 <= length zeros) by (unfold zeros; rewrite length_replicate; lia).
  pose proof (dt_approx_rec_level_0 (H := Reference.lazy) zeros (ByName "lazy") "lazy"
                None) as (_ & Hraise & _ & Hbare).
  split; [exact Hlen|]. split; [exact (Hraise Hlen)|]. split.
  - vm_compute. reflexivity.
  - refine (Hbare "symmetric" _ _ _ _ _ _); reflexivity.
Defined.

(** C7, as the code has it.  When the maximum level of the input is 0 (a
    signal shorter than the longest filter), any request, ['max'] or an int,
    is resolved to a level of at most 0, where [dtanalysis] hands back the
    bare array: [dt_approx_rec] then never returns an array of the shape of
    its input.  With two samples or more it raises, after the warning if the
    requested level was above the maximum; a one-sample array comes back as
    a 0-d value. *)
Theorem dt_approx_rec_maximum_0 `{PyWt} (xs : list Q) (level : Level)
    (first_stage : WaveletSpec) (wavelet : string) (mask : option barray)
    (w : Wavelet) (m : Z) :
  as_Wavelet first_stage = Ok w ->
  dt_max_level (arr1 xs) (ByObject w) wavelet = Ok m ->
  (m <= 0)%Z ->
  (forall r, outcome (dt_approx_rec (arr1 xs) level first_stage wavelet mask) = Ok r ->
             nd_shape r <> [length xs])
  /\ (2 <= length xs ->
      exists e, outcome (dt_approx_rec (arr1 xs) level first_stage wavelet mask)
                = Raise e)
  /\ (forall l, level = LInt l -> (m < l)%Z ->
                log (dt_approx_rec (arr1 xs) level first_stage wavelet mask)
                = [UserWarning l m]).
Proof.
  intros Hw Hm Hm0.
  assert (Hmain : forall r,
             outcome (dt_approx_rec (arr1 xs) level first_stage wavelet mask) = Ok r ->
             length xs = 1 /\ r = F64 (mk_array [] xs)).
  { intros r. apply approx_rec_of_level_leq_0.
    intros w' m' lvl Hw' Hm' Hres. rewrite Hw in Hw'. injection Hw' as <-.
    rewrite Hm in Hm'. injection Hm' as <-.
    pose proof (proj1 (resolve_level_bounds _ _ _ Hres)). lia. }
  split; [|split].
  - intros r Hr. destruct (Hmain r Hr) as [_ ->]. discriminate.
  - intros Hlen.
    destruct (outcome (dt_approx_rec (arr1 xs) level first_stage wavelet mask))
      as [r|e] eqn:E; [|eauto].
    destruct (Hmain r eq_refl) as [H1 _]. lia.
  - intros l -> Hl.
    rewrite (dt_approx_rec_log (arr1 xs) (LInt l) first_stage wavelet mask w m)
      by (assumption || (unfold ndim; simpl; lia)).
    simpl. apply Z.ltb_lt in Hl. rewrite Hl. reflexivity.
Qed.

Lemma dt_approx_rec_maximum_0_witness :
  let zeros := replicate 10 0%Q in
  as_Wavelet (L := Reference.lazy) (ByObject Reference.padded_wavelet)
    = Ok Reference.padded_wavelet
  /\ dt_max_level (L := Reference.lazy) (arr1 zeros) (ByObject Reference.padded_wavelet)
       "lazy" = Ok 0%Z
  /\ (0 <= 0)%Z /\ 2 <= length zeros /\ (0 < 1)%Z
  /\ (exists e, outcome (dt_approx_rec (L := Reference.lazy) (arr1 zeros) (LInt 1)
                           (ByObject Reference.padded_wavelet) "lazy" None) = Raise e)
  /\ log (dt_approx_rec (L := Reference.lazy) (arr1 zeros) (LInt 1)
            (ByObject Reference.padded_wavelet) "lazy" None) = [UserWarning 1 0]
  /\ outcome (dt_approx_rec (L := Reference.lazy) (arr1 zeros) (LInt 1)
                (ByObject Reference.padded_wavelet) "lazy" None) = Raise TypeError
  /\ outcome (dt_approx_rec (L := Reference.lazy) (arr1 zeros) LMax
                (ByObject Reference.padded_wavelet) "lazy" None) = Raise TypeError.
Proof.
  intros zeros.
  assert (Hw : as_Wavelet (L := Reference.lazy) (ByObject Reference.padded_wavelet)
               = Ok Reference.padded_wavelet) by reflexivity.
  assert (Hm : dt_max_level (L := Reference.lazy) (arr1 zeros)
                 (ByObject Reference.padded_wavelet) "lazy" = Ok 0%Z) by reflexivity.
  assert (H0 : (0 <= 0)%Z) by lia.
  assert (Hlen : 2 <= length zeros) by (unfold zeros; rewrite length_replicate; lia).
  assert (Hl : (0 < 1)%Z) by lia.
  pose proof (dt_approx_rec_maximum_0 (H := Reference.lazy) zeros (LInt 1)
                (ByObject Reference.padded_wavelet) "lazy" None
                Reference.padded_wavelet 0%Z Hw Hm H0) as (_ & Hraise & Hlog).
  repeat (split; [assumption|]).
  split; [exact (Hraise Hlen)|].
  split; [exact (Hlog 1%Z eq_refl Hl)|].
  split; vm_compute; reflexivity.
Defined.

(** ** Dual-tree analysis *)

Lemma mapM_result_lookup {A B : Type} (f : A -> result B) (xs : list A) (ys : list B) :
  mapM_result f xs = Ok ys ->
  length ys = length xs
  /\ forall k x, xs !! k = Some x -> exists y, ys !! k = Some y /\ f x = Ok y.
Proof.
  revert ys. induction xs as [|x xs IH]; intros ys Hm; simpl in Hm.
  - injection Hm as <-. split; [reflexivity|]. intros k x Hk.
    rewrite lookup_nil in Hk. discriminate.
  - apply bind_Ok in Hm as (y & Hy & Hm). apply bind_Ok in Hm as (ys' & Hys & Hm).
    injection Hm as <-. destruct (IH ys' Hys) as [Hlen Hlk].
    split; [simpl; rewrite Hlen; reflexivity|].
    intros [|k] x' Hk; simpl in Hk.
    + injection Hk as <-. exists y. split; [reflexivity | exact Hy].
    + apply Hlk. exact Hk.
Qed.

Lemma analysis_tree_inv `{PyWt} (data : farray) (first_stage wavelet : Wavelet)
    (level : Z) (mode : string) (cs : list farray) :
  _dt_analysis_tree data first_stage wavelet level mode = Ok cs ->
  exists approx detail late,
    dwt data first_stage mode = Ok (approx, detail)
    /\ wavedec approx wavelet mode (level - 1)%Z = Ok late
    /\ cs = late ++ [detail].
Proof.
  intros Ht. unfold _dt_analysis_tree in Ht.
  apply bind_Ok in Ht as ([approx detail] & Hdwt & Ht).
  apply bind_Ok in Ht as (late & Hdec & Ht). injection Ht as <-.
  exists approx, detail, late. auto.
Qed.

Lemma analysis_tree_length `{PyWt} (data : farray) (first_stage wavelet : Wavelet)
    (level : Z) (mode : string) (cs : list farray) :
  wavedec_contract -> (1 <= level)%Z ->
  _dt_analysis_tree data first_stage wavelet level mode = Ok cs ->
  length cs = Z.to_nat level + 1.
Proof.
  intros Hc Hl Ht.
  apply analysis_tree_inv in Ht as (approx & detail & late & _ & Hdec & ->).
  rewrite length_app. simpl.
  assert (Hk : (0 <= level - 1)%Z) by lia.
  rewrite (Hc _ _ _ _ _ Hk Hdec). lia.
Qed.

Lemma dtanalysis_inv `{PyWt} (data : farray) (first_stage : WaveletSpec)
    (wavelet : string) (level : Z) (mode : string) (c : Analysis) :
  (1 <= level)%Z ->
  dtanalysis data first_stage wavelet (LInt level) mode = Ok c ->
  exists real_first imag_first real_wavelet imag_wavelet real_coeffs imag_coeffs
         coeffs_list,
    dt_first_stage first_stage = Ok (real_first, imag_first)
    /\ dualtree_wavelet wavelet = Ok (real_wavelet, imag_wavelet)
    /\ _dt_analysis_tree data real_first real_wavelet level mode = Ok real_coeffs
    /\ _dt_analysis_tree data imag_first imag_wavelet level mode = Ok imag_coeffs
    /\ mapM_result (fun p => complex_combine p.1 p.2) (zip real_coeffs imag_coeffs)
       = Ok coeffs_list
    /\ c = Coeffs coeffs_list.
Proof.
  intros Hl Hd. unfold dtanalysis in Hd.
  apply bind_Ok in Hd as ([rw iw] & Hdt & Hd).
  apply bind_Ok in Hd as ([rf imf] & Hfs & Hd).
  apply bind_Ok in Hd as (w & _ & Hd).
  destruct (level <? 0)%Z eqn:E0; [apply Z.ltb_lt in E0; lia|].
  destruct (level =? 0)%Z eqn:E1; [apply Z.eqb_eq in E1; lia|].
  unfold analysis_trees in Hd.
  apply bind_Ok in Hd as (real_coeffs & Hr & Hd).
  apply bind_Ok in Hd as (imag_coeffs & Hi & Hd).
  apply bind_Ok in Hd as (coeffs_list & Hm & Hd). injection Hd as <-.
  exists rf, imf, rw, iw, real_coeffs, imag_coeffs, coeffs_list. auto 10.
Qed.

(** [real + 1j*imag] on arrays of one shape: real part [real], imaginary
    part [imag]. *)
Lemma complex_combine_parts (real imag : farray) (ck : carray) :
  complex_combine real imag = Ok ck -> shape real = shape imag ->
  shape ck = shape real
  /\ forall i a b, data real !! i = Some a -> data imag !! i = Some b ->
                   exists z, data ck !! i = Some z /\ Ceq z (a, b).
Proof.
  intros Hc Hs. unfold complex_combine, broadcast2 in Hc. cbn [shape data] in Hc.
  rewrite decide_True in Hc by exact Hs. cbn [mbind result_bind] in Hc.
  injection Hc as <-. cbn [shape data]. split; [reflexivity|].
  intros i a b Ha Hb. rewrite list_lookup_fmap.
  assert (Hz : zip (data real) ((fun b0 : Q => Cmul Cj (of_float b0)) <$> data imag) !! i
               = Some (a, Cmul Cj (of_float b))).
  { apply lookup_zip_Some. split; [exact Ha|]. rewrite list_lookup_fmap, Hb. reflexivity. }
  rewrite Hz. eexists. split; [reflexivity|].
  unfold Ceq, Cadd, Cmul, Cj, of_float. simpl. split; ring.
Qed.

Lemma complex_combine_same_shape (real imag : farray) :
  shape real = shape imag -> exists ck, complex_combine real imag = Ok ck.
Proof.
  intros Hs. unfold complex_combine, broadcast2. cbn [shape data].
  rewrite decide_True by exact Hs. eexists. reflexivity.
Qed.

Lemma mapM_result_total {A B : Type} (f : A -> result B) (xs : list A) :
  Forall (fun x => exists y, f x = Ok y) xs -> exists ys, mapM_result f xs = Ok ys.
Proof.
  induction 1 as [|x xs [y Hy] _ [ys Hys]]; simpl.
  - eexists. reflexivity.
  - rewrite Hy. cbn [mbind result_bind]. rewrite Hys. eexists. reflexivity.
Qed.

Lemma dt_first_stage_inv `{PyWt} (first_stage : WaveletSpec) (q : Wavelet * Wavelet) :
  dt_first_stage first_stage = Ok q -> exists w, as_Wavelet first_stage = Ok w.
Proof.
  unfold dt_first_stage, dt_first_stage_heap. intros Hq.
  destruct (as_Wavelet first_stage) as [w|e]; [eauto | discriminate].
Qed.

(** With the wavelets resolved, [dtanalysis] at a level [L >= 1] returns as
    soon as the two trees do and agree on the shapes of their entries. *)
Lemma dtanalysis_returns `{PyWt} (input : farray) (first_stage : WaveletSpec)
    (wavelet : string) (L : Z) (mode : string)
    (real_first imag_first real_wavelet imag_wavelet : Wavelet)
    (real_coeffs imag_coeffs : list farray) :
  (1 <= L)%Z ->
  dt_first_stage first_stage = Ok (real_first, imag_first) ->
  dualtree_wavelet wavelet = Ok (real_wavelet, imag_wavelet) ->
  _dt_analysis_tree input real_first real_wavelet L mode = Ok real_coeffs ->
  _dt_analysis_tree input imag_first imag_wavelet L mode = Ok imag_coeffs ->
  Forall2 (fun real imag => shape real = shape imag) real_coeffs imag_coeffs ->
  exists coeffs_list,
    dtanalysis input first_stage wavelet (LInt L) mode = Ok (Coeffs coeffs_list).
Proof.
  intros HL Hfs Hdt Hr Hi Hshapes.
  destruct (dt_first_stage_inv _ _ Hfs) as [w Hw].
  unfold dtanalysis. rewrite Hdt. cbn [mbind result_bind]. rewrite Hfs.
  cbn [mbind result_bind]. rewrite Hw. cbn [mbind result_bind].
  destruct (L <? 0)%Z eqn:E0; [apply Z.ltb_lt in E0; lia|].
  destruct (L =? 0)%Z eqn:E1; [apply Z.eqb_eq in E1; lia|].
  unfold analysis_trees. rewrite Hr. cbn [mbind result_bind]. rewrite Hi.
  cbn [mbind result_bind].
  destruct (mapM_result_total (fun p => complex_combine p.1 p.2)
              (zip real_coeffs imag_coeffs)) as [cs Hcs].
  { clear Hr Hi. induction Hshapes as [|r i rs ims Hs _ IH]; simpl; constructor.
    - apply complex_combine_same_shape. exact Hs.
    - exact IH. }
  rewrite Hcs. eexists. reflexivity.
Qed.

(** What a successful call of [dtanalysis] at a level [L >= 1] returns. *)
Lemma dtanalysis_result `{PyWt} (input : farray) (first_stage : WaveletSpec)
    (wavelet : string) (L : Z) (mode : string) (c : Analysis) :
  wavedec_contract -> (1 <= L)%Z ->
  dtanalysis input first_stage wavelet (LInt L) mode = Ok c ->
  exists real_first imag_first real_wavelet imag_wavelet real_coeffs imag_coeffs
         coeffs_list,
    c = Coeffs coeffs_list
    /\ length coeffs_list = Z.to_nat L + 1
    /\ dt_first_stage first_stage = Ok (real_first, imag_first)
    /\ dualtree_wavelet wavelet = Ok (real_wavelet, imag_wavelet)
    /\ (exists approx detail late,
          dwt input real_first mode = Ok (approx, detail)
          /\ wavedec approx real_wavelet mode (L - 1)%Z = Ok late
          /\ length late = Z.to_nat L
          /\ real_coeffs = late ++ [detail])
    /\ (exists approx detail late,
          dwt input imag_first mode = Ok (approx, detail)
          /\ wavedec approx imag_wavelet mode (L - 1)%Z = Ok late
          /\ length late = Z.to_nat L
          /\ imag_coeffs = late ++ [detail])
    /\ forall k real imag,
        real_coeffs !! k = Some real -> imag_coeffs !! k = Some imag ->
        exists ck,
          coeffs_list !! k = Some ck
          /\ complex_combine real imag = Ok ck
          /\ (shape real = shape imag ->
              shape ck = shape real
              /\ forall i a b, data real !! i = Some a -> data imag !! i = Some b ->
                               exists z, data ck !! i = Some z /\ Ceq z (a, b)).
Proof.
  intros Hc HL Hd.
  apply dtanalysis_inv in Hd
    as (rf & imf & rw & iw & rcs & ics & cs & Hfs & Hdt & Hr & Hi & Hm & ->);
    [|exact HL].
  pose proof (analysis_tree_length _ _ _ _ _ _ Hc HL Hr) as Lr.
  pose proof (analysis_tree_length _ _ _ _ _ _ Hc HL Hi) as Li.
  destruct (mapM_result_lookup _ _ _ Hm) as [Lc Hlk].
  exists rf, imf, rw, iw, rcs, ics, cs.
  split; [reflexivity|].
  split; [rewrite Lc, length_zip; lia|].
  split; [exact Hfs|]. split; [exact Hdt|].
  split; [|split].
  - apply analysis_tree_inv in Hr as (approx & detail & late & H1 & H2 & ->).
    exists approx, detail, late. repeat split; try assumption.
    assert (Hk : (0 <= L - 1)%Z) by lia.
    rewrite (Hc _ _ _ _ _ Hk H2). lia.
  - apply analysis_tree_inv in Hi as (approx & detail & late & H1 & H2 & ->).
    exists approx, detail, late. repeat split; try assumption.
    assert (Hk : (0 <= L - 1)%Z) by lia.
    rewrite (Hc _ _ _ _ _ Hk H2). lia.
  - intros k real imag Hkr Hki.
    destruct (Hlk k (real, imag)) as (ck & Hck & Hcomb).
    { apply lookup_zip_Some. split; assumption. }
    exists ck. split; [exact Hck|]. split; [exact Hcomb|].
    intros Hs. apply complex_combine_parts; assumption.
Qed.

(** C5.  Given that [wavedec] honours its contract, and for an int level
    [L >= 1]: [dtanalysis] returns a list as soon as its wavelets resolve,
    the two trees return and agree on the shapes of their entries; and
    what it returns is always a list of exactly [L + 1] arrays.  Entry [k]
    is [real_k + 1j*imag_k], where [real] and [imag] are the coefficient
    lists of the two trees (first-stage filters [real_first]/[imag_first],
    then [real_wavelet]/[imag_wavelet]); each of the two is the [wavedec]
    of the first-stage approximation at level [L - 1], that is
    [[cA_L, cD_L, ..., cD_2]], followed by the first-stage detail [cD_1].
    Where the two trees agree on the shape of an entry, the entry has that
    shape, its real parts are the samples of tree 1 and its imaginary parts
    those of tree 2. *)
Theorem dtanalysis_coefficient_list `{PyWt} (input : farray) (first_stage : WaveletSpec)
    (wavelet : string) (L : Z) (mode : string) :
  wavedec_contract -> (1 <= L)%Z ->
  (forall real_first imag_first real_wavelet imag_wavelet real_coeffs imag_coeffs,
      dt_first_stage first_stage = Ok (real_first, imag_first) ->
      dualtree_wavelet wavelet = Ok (real_wavelet, imag_wavelet) ->
      _dt_analysis_tree input real_first real_wavelet L mode = Ok real_coeffs ->
      _dt_analysis_tree input imag_first imag_wavelet L mode = Ok imag_coeffs ->
      Forall2 (fun real imag => shape real = shape imag) real_coeffs imag_coeffs ->
      exists coeffs_list,
        dtanalysis input first_stage wavelet (LInt L) mode = Ok (Coeffs coeffs_list))
  /\ forall c,
      dtanalysis input first_stage wavelet (LInt L) mode = Ok c ->
      exists real_first imag_first real_wavelet imag_wavelet real_coeffs imag_coeffs
             coeffs_list,
        c = Coeffs coeffs_list
        /\ length coeffs_list = Z.to_nat L + 1
        /\ dt_first_stage first_stage = Ok (real_first, imag_first)
        /\ dualtree_wavelet wavelet = Ok (real_wavelet, imag_wavelet)
        /\ (exists approx detail late,
              dwt input real_first mode = Ok (approx, detail)
              /\ wavedec approx real_wavelet mode (L - 1)%Z = Ok late
              /\ length late = Z.to_nat L
              /\ real_coeffs = late ++ [detail])
        /\ (exists approx detail late,
              dwt input imag_first mode = Ok (approx, detail)
              /\ wavedec approx imag_wavelet mode (L - 1)%Z = Ok late
              /\ length late = Z.to_nat L
              /\ imag_coeffs = late ++ [detail])
        /\ forall k real imag,
            real_coeffs !! k = Some real -> imag_coeffs !! k = Some imag ->
            exists ck,
              coeffs_list !! k = Some ck
              /\ complex_combine real imag = Ok ck
              /\ (shape real = shape imag ->
                  shape ck = shape real
                  /\ forall i a b, data real !! i = Some a -> data imag !! i = Some b ->
                                   exists z, data ck !! i = Some z /\ Ceq z (a, b)).
Proof.
  intros Hc HL. split.
  - intros rf imf rw iw rcs ics Hfs Hdt Hr Hi Hs.
    eapply dtanalysis_returns; eassumption.
  - intros c. apply dtanalysis_result; assumption.
Qed.

Lemma wavedec_loop_length (k : nat) :
  forall a w mode acc r,
    Reference.wavedec_loop k a w mode acc = Ok r -> length r = k + 1 + length acc.
Proof.
  induction k as [|k IH]; intros a w mode acc r Hr; simpl in Hr.
  - injection Hr as <-. simpl. lia.
  - apply bind_Ok in Hr as ([a' d] & _ & Hr). apply IH in Hr. simpl in Hr. lia.
Qed.

Lemma lazy_wavedec_contract : wavedec_contract (H := Reference.lazy).
Proof.
  intros x w mode k r Hk Hr. simpl in Hr. unfold Reference.lazy_wavedec in Hr.
  destruct (k <? 0)%Z; [discriminate|].
  apply wavedec_loop_length in Hr. simpl in Hr. lia.
Qed.

Lemma dtanalysis_coefficient_list_witness :
  let input : farray := arr1 [1; 2; 3; 4; 5; 6; 7; 8]%Q in
  let c : Analysis :=
    Coeffs [mk_array [2] [(1, 1); (5, 5)]%Q;
            mk_array [2] [(3, 3); (7, 7)]%Q;
            mk_array [4] [(2, 2); (4, 4); (6, 6); (8, 8)]%Q] in
  wavedec_contract (H := Reference.lazy) /\ (1 <= 2)%Z
  /\ dtanalysis (L := Reference.lazy) input (ByName "lazy") "lazy" (LInt 2) "symmetric"
     = Ok c
  /\ exists coeffs_list, c = Coeffs coeffs_list /\ length coeffs_list = 3.
Proof.
  intros input c.
  assert (HL : (1 <= 2)%Z) by lia.
  assert (E : dtanalysis (L := Reference.lazy) input (ByName "lazy") "lazy" (LInt 2)
                "symmetric" = Ok c) by (vm_compute; reflexivity).
  split; [exact lazy_wavedec_contract|]. split; [exact HL|]. split; [exact E|].
  destruct (proj2 (dtanalysis_coefficient_list (H := Reference.lazy) input
                     (ByName "lazy") "lazy" 2 "symmetric" lazy_wavedec_contract HL) c E)
    as (rf & imf & rw & iw & rcs & ics & cs & Hc & Hlen & _).
  exists cs. split; [exact Hc | exact Hlen].
Defined.

(** ** Size of the approximation above level 0

    Where the level that is used is at least 1, the reconciliation of
    lines 150-166 does what it is there for. *)

Lemma broadcast2_shape {A B : Type} (a : narray A) (b : narray B)
    (s : list nat) (ps : list (A * B)) :
  broadcast2 a b = Ok (s, ps) -> s = shape a \/ s = shape b.
Proof.
  unfold broadcast2. intros Hb.
  destruct (decide (shape a = shape b)); [injection Hb as <- _; auto|].
  destruct (all_ones (shape a) && (ndim a <=? ndim b)).
  { destruct (data a) as [|x [|? ?]]; try discriminate. injection Hb as <- _. auto. }
  destruct (all_ones (shape b) && (ndim b <=? ndim a)); [|discriminate].
  destruct (data b) as [|y [|? ?]]; try discriminate. injection Hb as <- _. auto.
Qed.

Lemma synthesis_tree_rank `{PyWt} (coeffs : list farray) (first_stage wavelet : Wavelet)
    (mode : string) (r : farray) :
  idwt_contract ->
  _dt_synthesis_tree coeffs first_stage wavelet mode = Ok r -> ndim r = 1.
Proof.
  intros Hc Ht. unfold _dt_synthesis_tree in Ht.
  apply bind_Ok in Ht as (d & _ & Ht).
  apply bind_Ok in Ht as (late & _ & Ht).
  apply bind_Ok in Ht as (n1 & _ & Ht).
  apply bind_Ok in Ht as (n2 & _ & Ht).
  apply bind_Ok in Ht as (late' & _ & Ht).
  eapply Hc. exact Ht.
Qed.

Lemma resolve_level_ge_1 (level : Level) (m lvl : Z) :
  (1 <= m)%Z -> (level = LMax \/ exists l, level = LInt l /\ (1 <= l)%Z) ->
  outcome (resolve_level level m) = Ok lvl -> (1 <= lvl)%Z.
Proof.
  intros Hm [-> | (l & -> & Hl)]; simpl.
  - intros [= <-]. exact Hm.
  - destruct (m <? l)%Z; simpl; intros [= <-]; assumption.
Qed.

Lemma reconcile_shape (n k : nat) (array : farray) (reconstructed r : ndarray) :
  shape array = [n] -> nd_shape reconstructed = [k] ->
  reconcile 1 array reconstructed = Ok r -> nd_shape r = [n].
Proof.
  intros Ha Hk Hr. unfold reconcile, nd_size, size in Hr. rewrite Ha, Hk in Hr.
  cbn [prod_list foldr Nat.eqb] in Hr. rewrite !Nat.mul_1_r in Hr.
  destruct (k =? n) eqn:E1.
  { apply Nat.eqb_eq in E1. injection Hr as <-. congruence. }
  apply Nat.eqb_neq in E1.
  destruct (n <? k) eqn:E2.
  - apply Nat.ltb_lt in E2. cbn [shape0 mbind result_bind] in Hr.
    assert (Hb : norm_bound k k (Some (Z.of_nat n)) - norm_bound k 0 None = n)
      by (unfold norm_bound; destruct (Z.ltb_spec (Z.of_nat n) 0); lia).
    destruct reconstructed as [a|a]; simpl in Hk, Hr; unfold getslice in Hr;
      rewrite Hk in Hr; simpl in Hr; injection Hr as <-; simpl; f_equal; exact Hb.
  - apply Nat.ltb_ge in E2. cbn [shape0 mbind result_bind] in Hr.
    unfold setslice, zeros_like_f in Hr. cbn [shape data] in Hr. rewrite Ha in Hr.
    destruct (decide _) as [_|]; [|discriminate].
    simpl in Hr. injection Hr as <-. reflexivity.
Qed.

(** X9.  Size preservation above level 0.  For a 1-D input whose maximum
    level is at least 1, and a requested level that is ['max'] or an int
    of at least 1 (above the maximum included), whatever [dt_approx_rec]
    returns has the shape of the input, given that [idwt] returns 1-D
    arrays and [wavedec] one entry more than its level. *)
Lemma dt_approx_rec_shape_preserved `{PyWt} (n : nat) (array : farray) (level : Level)
    (first_stage : WaveletSpec) (wavelet : string) (mask : option barray)
    (w : Wavelet) (m : Z) (r : ndarray) :
  idwt_contract -> wavedec_contract ->
  shape array = [n] ->
  as_Wavelet first_stage = Ok w ->
  dt_max_level array (ByObject w) wavelet = Ok m -> (1 <= m)%Z ->
  (level = LMax \/ exists l, level = LInt l /\ (1 <= l)%Z) ->
  outcome (dt_approx_rec array level first_stage wavelet mask) = Ok r ->
  nd_shape r = [n].
Proof.
  intros Hidwt Hdec Ha Hw Hm Hm1 Hlevel Hr. unfold dt_approx_rec in Hr.
  assert (Hdim : ndim array = 1) by (unfold ndim; rewrite Ha; reflexivity).
  rewrite Hdim in Hr. cbn [Nat.ltb Nat.leb Nat.eqb] in Hr.
  apply outcome_bind_Ok in Hr as (w' & Hw' & Hr). rewrite outcome_lift, Hw in Hw'.
  injection Hw' as <-.
  apply outcome_bind_Ok in Hr as (m' & Hm' & Hr). rewrite outcome_lift, Hm in Hm'.
  injection Hm' as <-.
  apply outcome_bind_Ok in Hr as (lvl & Hres & Hr).
  pose proof (resolve_level_ge_1 _ _ _ Hm1 Hlevel Hres) as Hlvl.
  apply outcome_bind_Ok in Hr as (coeffs & Han & Hr). rewrite outcome_lift in Han.
  apply outcome_bind_Ok in Hr as (app & Hhead & Hr). rewrite outcome_lift in Hhead.
  apply outcome_bind_Ok in Hr as (det & Htail & Hr). rewrite outcome_lift in Htail.
  apply outcome_bind_Ok in Hr as (zeroed & Hzero & Hr). rewrite outcome_lift in Hzero.
  apply outcome_bind_Ok in Hr as (reconstructed & Hsyn & Hr).
  rewrite outcome_lift in Hsyn. rewrite outcome_lift in Hr.
  apply dtanalysis_inv in Han
    as (rf & imf & rw & iw & rcs & ics & cs & _ & _ & Htr & Hti & Hmap & ->);
    [|exact Hlvl].
  pose proof (analysis_tree_length _ _ _ _ _ _ Hdec Hlvl Htr) as Lr.
  pose proof (analysis_tree_length _ _ _ _ _ _ Hdec Hlvl Hti) as Li.
  destruct (mapM_result_lookup _ _ _ Hmap) as [Lc _].
  rewrite length_zip in Lc.
  destruct cs as [|c0 [|c1 rest]]; simpl in Lc; try lia.
  simpl in Hhead, Htail. injection Hhead as <-. injection Htail as <-.
  simpl in Hzero. injection Hzero as <-.
  unfold dtsynthesis in Hsyn.
  apply bind_Ok in Hsyn as ([rw' iw'] & _ & Hsyn).
  apply bind_Ok in Hsyn as ([rf' imf'] & _ & Hsyn).
  cbn [fmap list_fmap] in Hsyn.
  apply bind_Ok in Hsyn as (real & Hreal & Hsyn).
  apply bind_Ok in Hsyn as (imag & Himag & Hsyn).
  apply bind_Ok in Hsyn as (sum & Hsum & Hsyn). injection Hsyn as <-.
  apply synthesis_tree_rank in Hreal; [|exact Hidwt].
  apply synthesis_tree_rank in Himag; [|exact Hidwt].
  unfold arr_add in Hsum. apply bind_Ok in Hsum as ([s ps] & Hb & Hsum).
  injection Hsum as <-.
  assert (Hs : exists k, s = [k]).
  { unfold ndim in Hreal, Himag.
    destruct (broadcast2_shape _ _ _ _ Hb) as [-> | ->].
    - destruct (shape real) as [|k [|? ?]]; simpl in Hreal; try lia. eauto.
    - destruct (shape imag) as [|k [|? ?]]; simpl in Himag; try lia. eauto. }
  destruct Hs as [k ->].
  refine (reconcile_shape n k array _ r Ha _ Hr). reflexivity.
Qed.

(** * Further properties of the module *)

(** ** The passes of [dt_baseline] *)

Lemma baseline_iteration_inv `{PyWt} (array signal signal' : farray)
    (background : ndarray) (level : Level) (first_stage : WaveletSpec)
    (wavelet : string) (background_regions : list Index) (mask : barray) :
  outcome (baseline_iteration array level first_stage wavelet background_regions
             mask signal) = Ok (signal', background) ->
  exists pinned,
    foldM (pin array) signal background_regions = Ok pinned
    /\ outcome (dt_approx_rec pinned level first_stage wavelet (Some mask)) = Ok background
    /\ clamp pinned background = Ok signal'.
Proof.
  intros Hit. unfold baseline_iteration in Hit.
  apply outcome_bind_Ok in Hit as (s1 & Hpin & Hit). rewrite outcome_lift in Hpin.
  apply outcome_bind_Ok in Hit as (bg & Hbg & Hit).
  apply outcome_bind_Ok in Hit as (s2 & Hclamp & Hit). rewrite outcome_lift in Hclamp.
  injection Hit as <- <-. exists s1. auto.
Qed.

(** X1.  Over the whole loop of [dt_baseline] on a 1-D signal: after any
    number of passes the working signal is, at every sample outside the
    background regions, at most what it was at the start, and it is still
    a 1-D array of the same length. *)
Lemma baseline_loop_monotone `{PyWt} (n : nat) (array : farray) (level : Level)
    (first_stage : WaveletSpec) (wavelet : string) (background_regions : list Index)
    (mask : barray) (k : nat) :
  wf1 n array ->
  forall signal background signal' background',
    wf1 n signal ->
    outcome (baseline_loop k array level first_stage wavelet background_regions mask
               signal background) = Ok (signal', background') ->
    wf1 n signal'
    /\ forall i x,
        (forall r, r ∈ background_regions -> ~ covers n r i) ->
        data signal !! i = Some x ->
        exists y, data signal' !! i = Some y /\ (y <= x)%Q.
Proof.
  intros Hwa. induction k as [|k IH]; intros signal background signal' background' Hws Hl.
  - simpl in Hl. injection Hl as <- <-. split; [exact Hws|].
    intros i x _ Hx. exists x. split; [exact Hx | apply Qle_refl].
  - simpl in Hl. apply outcome_bind_Ok in Hl as ([s1 b1] & Hit & Hl).
    apply baseline_iteration_inv in Hit as (pinned & Hpin & _ & Hclamp).
    destruct (foldM_pin_spec n array background_regions Hwa signal pinned Hws Hpin)
      as [Hwp Hkeep].
    destruct (clamp_spec n pinned s1 b1 Hwp Hclamp) as [Hw1 Hdown].
    destruct (IH s1 b1 signal' background' Hw1 Hl) as [Hw' Hd'].
    split; [exact Hw'|]. intros i x Hnc Hx.
    destruct (Hdown i x) as (y1 & Hy1 & Hle1); [rewrite Hkeep by exact Hnc; exact Hx|].
    destruct (Hd' i y1 Hnc Hy1) as (y & Hy & Hle).
    exists y. split; [exact Hy | eapply Qle_trans; eassumption].
Qed.

Lemma baseline_loop_monotone_witness :
  let array : farray := arr1 [1; 2; 3; 4; 5; 6; 7; 8]%Q in
  let signal : farray := arr1 [1; 9; 3; 9; 5; 9; 7; 8]%Q in
  let regions := [Idx (-1); Slice None (Some 2%Z)] in
  let mask : barray := arr1 (replicate 8 false) in
  wf1 8 array /\ wf1 8 signal
  /\ exists signal' background',
      outcome (baseline_loop (L := Reference.lazy) 3 array LMax (ByName "lazy") "lazy"
                 regions mask signal (F64 (zeros_like_f array)))
        = Ok (signal', background')
      /\ wf1 8 signal'
      /\ forall i x,
          (forall r, r ∈ regions -> ~ covers 8 r i) ->
          data signal !! i = Some x ->
          exists y, data signal' !! i = Some y /\ (y <= x)%Q.
Proof.
  intros array signal regions mask.
  assert (Hwa : wf1 8 array) by (split; reflexivity).
  assert (Hws : wf1 8 signal) by (split; reflexivity).
  split; [exact Hwa|]. split; [exact Hws|].
  eexists _, _. split; [vm_compute; reflexivity|].
  eapply (baseline_loop_monotone (H := Reference.lazy) 8 array LMax (ByName "lazy")
            "lazy" regions mask 3 Hwa signal (F64 (zeros_like_f array)) _ _ Hws).
  vm_compute. reflexivity.
Defined.

(** ** The background regions *)

Lemma splice_lookup_mid (xs mid : list Q) (a b i : nat) :
  length mid = b -> a <= length xs -> a <= i < a + b ->
  (take a xs ++ mid ++ drop (a + b) xs) !! i = mid !! (i - a).
Proof.
  intros Hm Ha Hi.
  rewrite lookup_app_r by (rewrite length_take; lia).
  rewrite length_take. replace (a `min` length xs) with a by lia.
  apply lookup_app_l. lia.
Qed.

Lemma pin_covered (n : nat) (array signal s' : farray) (index : Index) (i : nat) :
  wf1 n array -> wf1 n signal -> pin array signal index = Ok s' ->
  covers n index i -> data s' !! i = data array !! i.
Proof.
  intros [Ha La] [Hs Ls] Hpin Hc. destruct index as [z|start stop]; simpl in Hpin, Hc.
  - unfold getitem, setitem, stride in Hpin. rewrite Ha, Hs, Hc in Hpin.
    cbn [tail prod_list foldr mbind result_bind shape data] in Hpin.
    rewrite decide_True in Hpin by reflexivity. injection Hpin as <-.
    pose proof (norm_index_lt _ _ _ Hc) as Hk.
    rewrite !Nat.mul_1_r. cbn [data].
    rewrite splice_lookup_mid with (b := 1);
      [|rewrite length_take, length_drop; lia | lia | lia].
    rewrite Nat.sub_diag, lookup_take_lt, lookup_drop by lia. f_equal. lia.
  - unfold getslice, setslice, stride in Hpin. rewrite Ha, Hs in Hpin.
    cbn [tail prod_list foldr mbind result_bind shape data] in Hpin.
    rewrite decide_True in Hpin by reflexivity. injection Hpin as <-.
    pose proof (norm_bound_le n 0 start ltac:(lia)) as Hlo.
    pose proof (norm_bound_le n n stop ltac:(lia)) as Hhi.
    set (lo := norm_bound n 0 start) in *. set (hi := norm_bound n n stop) in *.
    rewrite !Nat.mul_1_r. cbn [data].
    rewrite splice_lookup_mid with (b := hi - lo);
      [|rewrite length_take, length_drop; lia | lia | lia].
    rewrite lookup_take_lt, lookup_drop by lia. f_equal. lia.
Qed.

Lemma covers_dec (n : nat) (index : Index) (i : nat) :
  covers n index i \/ ~ covers n index i.
Proof.
  destruct index as [z|start stop]; simpl.
  - destruct (norm_index n z) as [k|e]; [|right; discriminate].
    destruct (decide (k = i)) as [->|Hne]; [left; reflexivity|].
    right. intros [= E]. contradiction.
  - destruct (decide (norm_bound n 0 start <= i < norm_bound n n stop)); auto.
Qed.

Lemma covered_dec (n : nat) (regions : list Index) (i : nat) :
  (exists r, r ∈ regions /\ covers n r i)
  \/ (forall r, r ∈ regions -> ~ covers n r i).
Proof.
  induction regions as [|r regions IH].
  - right. intros r Hr. apply elem_of_nil in Hr. contradiction.
  - destruct (covers_dec n r i) as [Hc|Hnc].
    + left. exists r. split; [left | exact Hc].
    + destruct IH as [(r' & Hr' & Hc')|Hnone].
      * left. exists r'. split; [right; exact Hr' | exact Hc'].
      * right. intros r' Hr'. apply elem_of_cons in Hr' as [->|Hr']; auto.
Qed.

Lemma foldM_pin_covered (n : nat) (array : farray) (regions : list Index) :
  wf1 n array ->
  forall signal s', wf1 n signal -> foldM (pin array) signal regions = Ok s' ->
  forall i, (exists r, r ∈ regions /\ covers n r i) ->
            data s' !! i = data array !! i.
Proof.
  intros Hwa. induction regions as [|r regions IH]; intros signal s' Hws Hfold i Hex.
  - destruct Hex as (r & Hr & _). apply elem_of_nil in Hr. contradiction.
  - simpl in Hfold. apply bind_Ok in Hfold as (s1 & Hpin & Hfold).
    destruct (pin_spec n array signal s1 r Hwa Hws Hpin) as [Hw1 _].
    destruct (covered_dec n regions i) as [Hlater|Hnone].
    + eapply IH; eassumption.
    + destruct Hex as (r0 & Hr0 & Hc0).
      apply elem_of_cons in Hr0 as [->|Hr0]; [|exfalso; eapply Hnone; eassumption].
      destruct (foldM_pin_spec n array regions Hwa s1 s' Hw1 Hfold) as [_ Hkeep].
      rewrite Hkeep by exact Hnone.
      exact (pin_covered n array signal s1 r i Hwa Hws Hpin Hc0).
Qed.

(** X2.  The loop [for index in background_regions: signal[index] =
    array[index]] on 1-D arrays of one length: afterwards the working
    signal equals the original array at every sample that some entry
    designates (ints count from the end when negative, slices are clipped
    to the array), and is what it was everywhere else; its length is
    unchanged. *)
Theorem background_regions_pinned (n : nat) (array signal pinned : farray)
    (background_regions : list Index) :
  wf1 n array -> wf1 n signal ->
  foldM (pin array) signal background_regions = Ok pinned ->
  wf1 n pinned
  /\ (forall i, (exists r, r ∈ background_regions /\ covers n r i) ->
                data pinned !! i = data array !! i)
  /\ (forall i, (forall r, r ∈ background_regions -> ~ covers n r i) ->
                data pinned !! i = data signal !! i).
Proof.
  intros Hwa Hws Hfold.
  destruct (foldM_pin_spec n array background_regions Hwa signal pinned Hws Hfold)
    as [Hwp Hkeep].
  split; [exact Hwp|]. split; [|exact Hkeep].
  apply (foldM_pin_covered n array background_regions Hwa signal pinned Hws Hfold).
Qed.

Lemma background_regions_pinned_witness :
  let array : farray := arr1 [1; 2; 3; 4; 5; 6]%Q in
  let signal : farray := arr1 [0; 0; 0; 0; 0; 0]%Q in
  let regions := [Idx (-1); Slice (Some 1%Z) (Some 3%Z); Slice (Some 4%Z) (Some 100%Z)] in
  let pinned : farray := arr1 [0; 2; 3; 0; 5; 6]%Q in
  wf1 6 array /\ wf1 6 signal
  /\ foldM (pin array) signal regions = Ok pinned
  /\ wf1 6 pinned
  /\ (forall i, (exists r, r ∈ regions /\ covers 6 r i) ->
                data pinned !! i = data array !! i)
  /\ (forall i, (forall r, r ∈ regions -> ~ covers 6 r i) ->
                data pinned !! i = data signal !! i).
Proof.
  intros array signal regions pinned.
  assert (Hwa : wf1 6 array) by (split; reflexivity).
  assert (Hws : wf1 6 signal) by (split; reflexivity).
  assert (Hf : foldM (pin array) signal regions = Ok pinned) by (vm_compute; reflexivity).
  split; [exact Hwa|]. split; [exact Hws|]. split; [exact Hf|].
  exact (background_regions_pinned 6 array signal pinned regions Hwa Hws Hf).
Defined.

Lemma foldM_app {A B : Type} (f : B -> A -> result B) (acc : B) (xs ys : list A) :
  foldM f acc (xs ++ ys) = (acc' ← foldM f acc xs; foldM f acc' ys).
Proof.
  revert acc. induction xs as [|x xs IH]; intros acc; simpl; [reflexivity|].
  destruct (f acc x) as [acc'|e]; simpl; [apply IH | reflexivity].
Qed.

Lemma norm_index_in_bounds (n : nat) (z : Z) :
  (- Z.of_nat n <= z < Z.of_nat n)%Z -> exists k, norm_index n z = Ok k.
Proof.
  intros Hz. unfold norm_index.
  destruct (z <? 0)%Z eqn:E0.
  - apply Z.ltb_lt in E0.
    replace ((0 <=? z + Z.of_nat n)%Z && (z + Z.of_nat n <? Z.of_nat n)%Z) with true;
      [eauto|].
    symmetry. apply andb_true_iff. split; [apply Z.leb_le | apply Z.ltb_lt]; lia.
  - apply Z.ltb_ge in E0.
    replace ((0 <=? z)%Z && (z <? Z.of_nat n)%Z) with true; [eauto|].
    symmetry. apply andb_true_iff. split; [apply Z.leb_le | apply Z.ltb_lt]; lia.
Qed.

Lemma norm_index_out_of_bounds (n : nat) (z : Z) :
  (z < - Z.of_nat n \/ Z.of_nat n <= z)%Z -> norm_index n z = Raise IndexError.
Proof.
  intros Hz. unfold norm_index.
  destruct (z <? 0)%Z eqn:E0.
  - apply Z.ltb_lt in E0.
    replace ((0 <=? z + Z.of_nat n)%Z && (z + Z.of_nat n <? Z.of_nat n)%Z) with false;
      [reflexivity|].
    symmetry. apply andb_false_iff. left. apply Z.leb_gt. lia.
  - apply Z.ltb_ge in E0.
    replace ((0 <=? z)%Z && (z <? Z.of_nat n)%Z) with false; [reflexivity|].
    symmetry. apply andb_false_iff. right. apply Z.ltb_ge. lia.
Qed.

Lemma pin_in_bounds (n : nat) (array signal : farray) (index : Index) :
  wf1 n array -> wf1 n signal -> in_bounds n index ->
  exists s', pin array signal index = Ok s'.
Proof.
  intros [Ha La] [Hs Ls] Hb. destruct index as [z|start stop]; simpl in *.
  - destruct (norm_index_in_bounds n z Hb) as [k Hk].
    unfold getitem, setitem. rewrite Ha, Hs, Hk.
    cbn [mbind result_bind shape]. rewrite decide_True by reflexivity. eauto.
  - unfold getslice, setslice. rewrite Ha, Hs.
    cbn [mbind result_bind shape]. rewrite decide_True by reflexivity. eauto.
Qed.

Lemma foldM_pin_in_bounds (n : nat) (array : farray) (regions : list Index) :
  wf1 n array -> Forall (in_bounds n) regions ->
  forall signal, wf1 n signal ->
  exists s', foldM (pin array) signal regions = Ok s' /\ wf1 n s'.
Proof.
  intros Hwa Hall. induction Hall as [|r regions Hr _ IH]; intros signal Hws.
  - exists signal. split; [reflexivity | exact Hws].
  - destruct (pin_in_bounds n array signal r Hwa Hws Hr) as [s1 Hpin].
    destruct (pin_spec n array signal s1 r Hwa Hws Hpin) as [Hw1 _].
    destruct (IH s1 Hw1) as (s' & Hfold & Hw').
    exists s'. split; [|exact Hw']. simpl. rewrite Hpin. exact Hfold.
Qed.

(** X3.  Errors of the background regions of a 1-D array of [n] samples.
    Entries that are slices, or ints in [-n, n), never raise.  The first
    int outside [-n, n) makes [dt_baseline] raise [IndexError] in its first
    pass (if at least one pass is asked for), before any wavelet is looked
    up and without a warning, whatever the level and the wavelet names. *)
Theorem dt_baseline_region_out_of_bounds `{PyWt} (n : nat) (array : farray)
    (max_iter : Z) (level : Level) (first_stage : WaveletSpec) (wavelet : string)
    (before after : list Index) (z : Z) (mask : option barray) :
  wf1 n array -> (1 <= max_iter)%Z ->
  Forall (in_bounds n) before ->
  (z < - Z.of_nat n \/ Z.of_nat n <= z)%Z ->
  (exists pinned, foldM (pin array) array before = Ok pinned /\ wf1 n pinned)
  /\ dt_baseline array max_iter level first_stage wavelet
       (before ++ Idx z :: after) mask = raise IndexError.
Proof.
  intros Hwa Hiter Hall Hz.
  destruct (foldM_pin_in_bounds n array before Hwa Hall array Hwa) as (s1 & Hfold & Hw1).
  split; [eauto|].
  assert (Hraise : foldM (pin array) array (before ++ Idx z :: after) = Raise IndexError).
  { rewrite foldM_app, Hfold. cbn [mbind result_bind foldM].
    destruct Hw1 as [Hs1 _]. destruct Hwa as [Ha _].
    unfold pin, getitem. rewrite Ha, (norm_index_out_of_bounds n z Hz). reflexivity. }
  unfold dt_baseline. destruct (Z.to_nat max_iter) as [|k] eqn:Ek; [lia|].
  cbn [baseline_loop]. unfold baseline_iteration. rewrite Hraise. reflexivity.
Qed.

Lemma dt_baseline_region_out_of_bounds_witness :
  let array : farray := arr1 [1; 2; 3; 4]%Q in
  wf1 4 array /\ (1 <= 10)%Z
  /\ Forall (in_bounds 4) [Idx (-4); Slice (Some 2%Z) (Some 9%Z); Idx 3]
  /\ (4 < - Z.of_nat 4 \/ Z.of_nat 4 <= 4)%Z
  /\ dt_baseline (L := Reference.lazy) array 10 LMax (ByName "no such wavelet") "lazy"
       ([Idx (-4); Slice (Some 2%Z) (Some 9%Z); Idx 3] ++ Idx 4 :: [Idx 0]) None
     = raise IndexError.
Proof.
  intros array.
  assert (Hwa : wf1 4 array) by (split; reflexivity).
  assert (Hit : (1 <= 10)%Z) by lia.
  assert (Hall : Forall (in_bounds 4) [Idx (-4); Slice (Some 2%Z) (Some 9%Z); Idx 3])
    by (repeat constructor; simpl; lia).
  assert (Hz : (4 < - Z.of_nat 4 \/ Z.of_nat 4 <= 4)%Z) by (right; simpl; lia).
  split; [exact Hwa|]. split; [exact Hit|]. split; [exact Hall|]. split; [exact Hz|].
  exact (proj2 (dt_baseline_region_out_of_bounds (H := Reference.lazy) 4 array 10 LMax
                  (ByName "no such wavelet") "lazy" _ [Idx 0] 4 None Hwa Hit Hall Hz)).
Defined.

(** ** The clamp *)

Lemma scatter_select_eq {A : Type} (m : list bool) (xs vs : list A) (i : nat)
    (b : bool) (x v : A) :
  m !! i = Some b -> xs !! i = Some x -> vs !! i = Some v ->
  scatter m xs (select m vs) !! i = Some (if b then v else x).
Proof.
  revert xs vs i. induction m as [|b0 m IH]; intros xs vs i Hm Hx Hv.
  - rewrite lookup_nil in Hm. discriminate.
  - destruct xs as [|x0 xs]; [rewrite lookup_nil in Hx; discriminate|].
    destruct vs as [|v0 vs]; [rewrite lookup_nil in Hv; discriminate|].
    destruct i as [|i]; simpl in Hm, Hx, Hv.
    + injection Hm as ->. injection Hx as ->. injection Hv as ->.
      destruct b; reflexivity.
    + destruct b0; simpl; apply IH; assumption.
Qed.

Lemma Qgtb_false_le (x y : Q) : Qgtb x y = false -> (x <= y)%Q.
Proof.
  unfold Qgtb. intros Hg. apply negb_false_iff in Hg. apply Qle_bool_iff. exact Hg.
Qed.

Lemma lookup_mask {A B : Type} (f : A * B -> bool) (xs : list A) (ys : list B)
    (i : nat) (x : A) (y : B) :
  xs !! i = Some x -> ys !! i = Some y -> (f <$> zip xs ys) !! i = Some (f (x, y)).
Proof.
  intros Hx Hy. rewrite list_lookup_fmap.
  rewrite (proj2 (lookup_zip_Some xs ys i x y) (conj Hx Hy)). reflexivity.
Qed.

(** Where the clamp succeeds, each sample becomes the smaller of itself
    and the real part of the background sample. *)
Lemma clamp_minimum (signal s' : farray) (background : ndarray) :
  clamp signal background = Ok s' ->
  forall i x z, data signal !! i = Some x -> nd_cdata background !! i = Some z ->
    exists y, data s' !! i = Some y
              /\ (y <= x)%Q /\ (y <= z.1)%Q /\ (y = x \/ y = z.1).
Proof.
  intros Hc i x z Hx Hz. unfold clamp in Hc.
  apply bind_Ok in Hc as (rhs & Hrhs & Hc).
  apply bind_Ok in Hrhs as (m & Hm & Hsel).
  rewrite Hm in Hc. cbn [mbind result_bind] in Hc.
  unfold mask_select in Hsel. destruct (decide (nd_shape background = shape m)) as [Hbm|];
    [|discriminate].
  unfold mask_assign in Hc. destruct (decide (shape signal = shape m)) as [Hsm|];
    [|discriminate].
  destruct background as [b|b]; simpl in Hm, Hbm, Hz.
  - apply bind_Ok in Hm as ([s ps] & Hbr & Hm). injection Hm as <-.
    cbn [shape data] in *.
    pose proof (broadcast2_same_shape _ _ _ _ Hbr Hsm Hbm) as ->.
    injection Hsel as <-. cbn [nd_cdata nd_shape arr1 shape data] in Hc.
    set (md := (fun p : Q * Q => Qgtb p.1 p.2) <$> zip (data signal) (data b)) in *.
    assert (Hlen : length md <= length (data b)).
    { unfold md. rewrite length_fmap, length_zip. lia. }
    rewrite decide_True in Hc by (rewrite (length_select md _ Hlen); reflexivity).
    injection Hc as <-. cbn [data].
    rewrite <- list_fmap_compose.
    replace (fst ∘ (fun q : Q => (q, 0%Q))) with (@id Q) by reflexivity.
    rewrite list_fmap_id.
    rewrite list_lookup_fmap in Hz. apply fmap_Some in Hz as (v & Hv & ->).
    rewrite (scatter_select_eq md _ _ i (Qgtb x v) x v);
      [|apply (lookup_mask (fun p => Qgtb p.1 p.2)); assumption | exact Hx | exact Hv].
    eexists. split; [reflexivity|]. simpl.
    destruct (Qgtb x v) eqn:E.
    + apply Qgtb_le in E. repeat split; [exact E | apply Qle_refl | right; reflexivity].
    + apply Qgtb_false_le in E.
      repeat split; [apply Qle_refl | exact E | left; reflexivity].
  - apply bind_Ok in Hm as ([s ps] & Hbr & Hm). injection Hm as <-.
    cbn [shape data] in *.
    pose proof (broadcast2_same_shape _ _ _ _ Hbr Hsm Hbm) as ->.
    injection Hsel as <-. cbn [nd_cdata nd_shape arr1 shape data] in Hc.
    set (md := (fun p : Q * C => Cgtb (of_float p.1) p.2) <$> zip (data signal) (data b))
      in *.
    assert (Hlen : length md <= length (data b)).
    { unfold md. rewrite length_fmap, length_zip. lia. }
    rewrite decide_True in Hc by (rewrite (length_select md _ Hlen); reflexivity).
    injection Hc as <-. cbn [data].
    rewrite select_fmap.
    rewrite (scatter_select_eq md _ _ i (Cgtb (of_float x) z) x z.1);
      [|apply (lookup_mask (fun p => Cgtb (of_float p.1) p.2)); assumption
       | exact Hx
       | rewrite list_lookup_fmap; exact (f_equal (fmap (M:=option) fst) Hz)].
    eexists. split; [reflexivity|].
    destruct (Cgtb (of_float x) z) eqn:E.
    + apply Cgtb_le in E. repeat split; [exact E | apply Qle_refl | right; reflexivity].
    + unfold Cgtb in E. apply orb_false_iff in E as [E _]. simpl in E.
      apply Qgtb_false_le in E.
      repeat split; [apply Qle_refl | exact E | left; reflexivity].
Qed.

Lemma clamp_length (signal s' : farray) (background : ndarray) :
  clamp signal background = Ok s' ->
  shape s' = shape signal /\ length (data s') = length (data signal)
  /\ nd_shape background = shape signal.
Proof.
  intros Hc. unfold clamp in Hc.
  apply bind_Ok in Hc as (rhs & Hrhs & Hc).
  apply bind_Ok in Hrhs as (m & Hm & Hsel).
  rewrite Hm in Hc. cbn [mbind result_bind] in Hc.
  unfold mask_select in Hsel. destruct (decide (nd_shape background = shape m)) as [Hbm|];
    [|discriminate].
  unfold mask_assign in Hc. destruct (decide (shape signal = shape m)) as [Hsm|];
    [|discriminate].
  assert (Hs' : shape s' = shape signal /\ length (data s') = length (data signal)).
  { destruct (decide _) in Hc.
    - injection Hc as <-. cbn [shape data]. rewrite length_scatter. auto.
    - destruct (all_ones _); [|discriminate].
      destruct (fst <$> nd_cdata rhs) as [|v [|? ?]]; try discriminate.
      injection Hc as <-. cbn [shape data]. split; [reflexivity|].
      clear. generalize (data signal). induction (data m) as [|b m' IH]; intros [|x xs];
        simpl; try reflexivity. rewrite IH. reflexivity. }
  destruct Hs' as [H1 H2]. repeat split; [exact H1 | exact H2 | congruence].
Qed.

(** X4.  "Modify the signal so it cannot be more than the background": a
    pass of the loop of [dt_baseline] that completes leaves a working
    signal of the shape of the background it computed, each sample of
    which is at most the (real part of the) background sample at its
    position, and is the smaller of that and the sample of the pinned
    signal the pass started from. *)
Theorem working_signal_below_background `{PyWt} (array signal signal' : farray)
    (background : ndarray) (level : Level) (first_stage : WaveletSpec)
    (wavelet : string) (background_regions : list Index) (mask : barray) :
  outcome (baseline_iteration array level first_stage wavelet background_regions
             mask signal) = Ok (signal', background) ->
  nd_shape background = shape signal'
  /\ (forall i y z, data signal' !! i = Some y -> nd_cdata background !! i = Some z ->
                    (y <= z.1)%Q)
  /\ exists pinned,
      foldM (pin array) signal background_regions = Ok pinned
      /\ forall i x z, data pinned !! i = Some x -> nd_cdata background !! i = Some z ->
           exists y, data signal' !! i = Some y /\ (y = x \/ y = z.1)
                     /\ (y <= x)%Q /\ (y <= z.1)%Q.
Proof.
  intros Hit. apply baseline_iteration_inv in Hit as (pinned & Hpin & _ & Hclamp).
  destruct (clamp_length _ _ _ Hclamp) as (Hsh & Hlen & Hbg).
  split; [congruence|]. split.
  - intros i y z Hy Hz.
    assert (Hi : i < length (data pinned)).
    { rewrite <- Hlen. eapply lookup_lt_Some. exact Hy. }
    destruct (lookup_lt_is_Some_2 _ _ Hi) as [x Hx].
    destruct (clamp_minimum _ _ _ Hclamp i x z Hx Hz) as (y' & Hy' & _ & Hle & _).
    rewrite Hy in Hy'. injection Hy' as <-. exact Hle.
  - exists pinned. split; [exact Hpin|]. intros i x z Hx Hz.
    destruct (clamp_minimum _ _ _ Hclamp i x z Hx Hz) as (y & Hy & H1 & H2 & H3).
    exists y. auto.
Qed.

Lemma working_signal_below_background_witness :
  let array : farray := arr1 [1; 2; 3; 4; 5; 6; 7; 8]%Q in
  let signal : farray := arr1 [1; 9; 3; -9; 5; 9; 7; 8]%Q in
  exists signal' background,
    outcome (baseline_iteration (L := Reference.lazy) array (LInt 1) (ByName "lazy")
               "lazy" [Idx 0] (arr1 (replicate 8 false)) signal)
      = Ok (signal', background)
    /\ data signal' = [1; 0 # 2; 3; -9; 5; 0 # 2; 7; 0 # 2]%Q
    /\ nd_shape background = shape signal'
    /\ forall i y z, data signal' !! i = Some y -> nd_cdata background !! i = Some z ->
                     (y <= z.1)%Q.
Proof.
  intros array signal.
  eexists _, _. split; [vm_compute; reflexivity|]. split; [reflexivity|].
  refine ((fun H => conj (proj1 H) (proj1 (proj2 H)))
            (working_signal_below_background (H := Reference.lazy) array signal _ _
               (LInt 1) (ByName "lazy") "lazy" [Idx 0] (arr1 (replicate 8 false)) _)).
  vm_compute. reflexivity.
Defined.

(** ** The whole of [dt_baseline] *)

Lemma baseline_loop_below `{PyWt} (n : nat) (array : farray) (level : Level)
    (first_stage : WaveletSpec) (wavelet : string) (background_regions : list Index)
    (mask : barray) (k : nat) :
  wf1 n array ->
  forall signal background signal' background',
    wf1 n signal -> below (data signal) (data array) ->
    outcome (baseline_loop k array level first_stage wavelet background_regions mask
               signal background) = Ok (signal', background') ->
    wf1 n signal' /\ below (data signal') (data array).
Proof.
  intros Hwa. induction k as [|k IH];
    intros signal background signal' background' Hws Hbelow Hl.
  - simpl in Hl. injection Hl as <- <-. auto.
  - simpl in Hl. apply outcome_bind_Ok in Hl as ([s1 b1] & Hit & Hl).
    apply baseline_iteration_inv in Hit as (pinned & Hpin & _ & Hclamp).
    destruct (foldM_pin_spec n array background_regions Hwa signal pinned Hws Hpin)
      as [Hwp Hkeep].
    pose proof (foldM_pin_covered n array background_regions Hwa signal pinned Hws Hpin)
      as Hcov.
    destruct (clamp_spec n pinned s1 b1 Hwp Hclamp) as [Hw1 Hdown].
    apply (IH s1 b1 signal' background' Hw1); [|exact Hl].
    intros i y a Hy Ha.
    assert (Hi : i < length (data pinned)).
    { destruct Hwp as [_ ->]. destruct Hw1 as [_ <-]. eapply lookup_lt_Some. exact Hy. }
    destruct (lookup_lt_is_Some_2 _ _ Hi) as [x Hx].
    destruct (Hdown i x Hx) as (y' & Hy' & Hle). rewrite Hy in Hy'. injection Hy' as <-.
    eapply Qle_trans; [exact Hle|].
    destruct (covered_dec n background_regions i) as [Hc|Hnc].
    + rewrite (Hcov i Hc), Ha in Hx. injection Hx as <-. apply Qle_refl.
    + rewrite (Hkeep i Hnc) in Hx. exact (Hbelow i x a Hx Ha).
Qed.

(** X5.  The working signal of [dt_baseline] never rises above the input:
    started from a copy of a 1-D array, after any number of passes, every
    sample of the working signal is at most the sample of the input at its
    position, inside the background regions (reset, then clamped) as well
    as outside them. *)
Theorem working_signal_below_input `{PyWt} (n : nat) (array : farray) (level : Level)
    (first_stage : WaveletSpec) (wavelet : string) (background_regions : list Index)
    (mask : barray) (k : nat) (background : ndarray) (signal' : farray)
    (background' : ndarray) :
  wf1 n array ->
  outcome (baseline_loop k array level first_stage wavelet background_regions mask
             array background) = Ok (signal', background') ->
  wf1 n signal'
  /\ forall i x a, data signal' !! i = Some x -> data array !! i = Some a -> (x <= a)%Q.
Proof.
  intros Hwa Hl.
  apply (baseline_loop_below n array level first_stage wavelet background_regions mask k
           Hwa array background signal' background' Hwa); [|exact Hl].
  intros i x y Hx Hy. rewrite Hx in Hy. injection Hy as <-. apply Qle_refl.
Qed.

Lemma working_signal_below_input_witness :
  let array : farray := arr1 [1; 9; 3; -9; 5; 9; 7; 8]%Q in
  wf1 8 array
  /\ exists signal' background',
      outcome (baseline_loop (L := Reference.lazy) 3 array (LInt 2) (ByName "lazy")
                 "lazy" [Idx 1; Slice (Some (-2)%Z) None] (arr1 (replicate 8 false))
                 array (F64 (zeros_like_f array))) = Ok (signal', background')
      /\ wf1 8 signal'
      /\ forall i x a, data signal' !! i = Some x -> data array !! i = Some a ->
                       (x <= a)%Q.
Proof.
  intros array.
  assert (Hwa : wf1 8 array) by (split; reflexivity).
  split; [exact Hwa|].
  eexists _, _. split; [vm_compute; reflexivity|].
  eapply (working_signal_below_input (H := Reference.lazy) 8 array (LInt 2)
            (ByName "lazy") "lazy" [Idx 1; Slice (Some (-2)%Z) None]
            (arr1 (replicate 8 false)) 3 (F64 (zeros_like_f array)) _ _ Hwa).
  vm_compute. reflexivity.
Defined.

Lemma fill_constant {A B : Type} (m : list bool) (xs : list B) (v : A) :
  fill m ((fun _ => v) <$> xs) v = (fun _ => v) <$> xs.
Proof.
  revert xs. induction m as [|b m IH]; intros [|x xs]; simpl; try reflexivity.
  rewrite IH. destruct b; reflexivity.
Qed.

(** X6.  With [max_iter <= 0] the loop of [dt_baseline] does not run: for
    an input of any rank, with no mask or a mask of the shape of the input,
    the result is the all-zero float array of the shape of the input, with
    no warning.  Nothing is validated on that path: not the rank, not the
    level, not the wavelet names, not the background regions. *)
Theorem dt_baseline_without_pass `{PyWt} (array : farray) (max_iter : Z) (level : Level)
    (first_stage : WaveletSpec) (wavelet : string) (background_regions : list Index)
    (mask : option barray) :
  (max_iter <= 0)%Z ->
  (forall m, mask = Some m -> shape m = shape array) ->
  dt_baseline array max_iter level first_stage wavelet background_regions mask
  = mret (F64 (zeros_like_f array)).
Proof.
  intros Hiter Hmask. unfold dt_baseline.
  replace (Z.to_nat max_iter) with 0 by lia. cbn [baseline_loop].
  unfold mbind, M_bind, mret, M_ret. cbn [outcome log app lift].
  unfold mask_fill. cbn [nd_shape zeros_like_f shape data].
  assert (Hsh : shape array = shape (match mask with
                                     | Some m => m
                                     | None => zeros_like_bool array
                                     end)).
  { destruct mask as [m|]; [symmetry; apply Hmask; reflexivity | reflexivity]. }
  rewrite decide_True by exact Hsh.
  rewrite fill_constant. reflexivity.
Qed.

Lemma dt_baseline_without_pass_witness :
  let array : farray := mk_array [2; 2] [1; 2; 3; 4]%Q in
  let mask : barray := mk_array [2; 2] [true; false; false; true] in
  (-3 <= 0)%Z
  /\ (forall m, Some mask = Some m -> shape m = shape array)
  /\ dt_baseline (L := Reference.lazy) array (-3) (LInt (-7)) (ByName "no such wavelet")
       "nor this one" [Idx 99] (Some mask)
     = mret (F64 (mk_array [2; 2] [0; 0; 0; 0]%Q)).
Proof.
  intros array mask.
  assert (Hiter : (-3 <= 0)%Z) by lia.
  assert (Hmask : forall m, Some mask = Some m -> shape m = shape array)
    by (intros m [= <-]; reflexivity).
  split; [exact Hiter|]. split; [exact Hmask|].
  exact (dt_baseline_without_pass (H := Reference.lazy) array (-3) (LInt (-7))
           (ByName "no such wavelet") "nor this one" [Idx 99] (Some mask) Hiter Hmask).
Defined.

Lemma pin_shape (array signal s' : farray) (index : Index) :
  pin array signal index = Ok s' -> shape s' = shape signal.
Proof.
  destruct index as [z|start stop]; simpl; intros Hpin.
  - apply bind_Ok in Hpin as (v & _ & Hset). unfold setitem in Hset.
    destruct (shape signal) as [|n rest] eqn:Es; [discriminate|].
    apply bind_Ok in Hset as (k & _ & Hset).
    destruct (decide _) in Hset; [|discriminate]. injection Hset as <-. reflexivity.
  - apply bind_Ok in Hpin as (v & _ & Hset). unfold setslice in Hset.
    destruct (shape signal) as [|n rest] eqn:Es; [discriminate|].
    destruct (decide _) in Hset; [|discriminate]. injection Hset as <-. reflexivity.
Qed.

Lemma foldM_pin_shape (array : farray) (regions : list Index) :
  forall signal s', foldM (pin array) signal regions = Ok s' -> shape s' = shape signal.
Proof.
  induction regions as [|r regions IH]; intros signal s' Hfold; simpl in Hfold.
  - injection Hfold as <-. reflexivity.
  - apply bind_Ok in Hfold as (s1 & Hpin & Hfold).
    rewrite (IH _ _ Hfold). eapply pin_shape. exact Hpin.
Qed.

Lemma lift_Ok_bind {A B : Type} (a : A) (f : A -> M B) : lift (Ok a) ≫= f = f a.
Proof. unfold mbind, M_bind. simpl. destruct (f a). reflexivity. Qed.

Lemma raise_bind {A B : Type} (e : PyErr) (f : A -> M B) : raise e ≫= f = raise e.
Proof. reflexivity. Qed.

Lemma approx_rec_guard `{PyWt} (array : farray) (level : Level)
    (first_stage : WaveletSpec) (wavelet : string) (mask : option barray) :
  (ndim array = 2 ->
   dt_approx_rec array level first_stage wavelet mask = raise NotImplementedError)
  /\ (2 < ndim array ->
      dt_approx_rec array level first_stage wavelet mask = raise ValueError).
Proof.
  unfold dt_approx_rec. split; intros Hd.
  - rewrite Hd. reflexivity.
  - destruct (2 <? ndim array) eqn:E; [reflexivity|]. apply Nat.ltb_ge in E. lia.
Qed.

(** X7.  The rank guard of [dt_approx_rec] surfaces through [dt_baseline]:
    asked for at least one pass, and once the background regions of the
    first pass have been written, [dt_baseline] raises
    [NotImplementedError] on a 2-D input and [ValueError] on an input of
    rank above 2, without a warning. *)
Theorem dt_baseline_rejects_rank `{PyWt} (array pinned : farray) (max_iter : Z)
    (level : Level) (first_stage : WaveletSpec) (wavelet : string)
    (background_regions : list Index) (mask : option barray) :
  (1 <= max_iter)%Z ->
  foldM (pin array) array background_regions = Ok pinned ->
  (ndim array = 2 ->
   dt_baseline array max_iter level first_stage wavelet background_regions mask
   = raise NotImplementedError)
  /\ (2 < ndim array ->
      dt_baseline array max_iter level first_stage wavelet background_regions mask
      = raise ValueError).
Proof.
  intros Hiter Hpin.
  pose proof (foldM_pin_shape _ _ _ _ Hpin) as Hsh.
  assert (Hnd : ndim pinned = ndim array) by (unfold ndim; rewrite Hsh; reflexivity).
  unfold dt_baseline. destruct (Z.to_nat max_iter) as [|k] eqn:Ek; [lia|].
  cbn [baseline_loop]. unfold baseline_iteration. rewrite Hpin, lift_Ok_bind.
  split; intros Hd.
  - rewrite (proj1 (approx_rec_guard pinned level first_stage wavelet _))
      by (rewrite Hnd; exact Hd).
    reflexivity.
  - rewrite (proj2 (approx_rec_guard pinned level first_stage wavelet _))
      by (rewrite Hnd; exact Hd).
    reflexivity.
Qed.

Lemma dt_baseline_rejects_rank_witness :
  let a2 : farray := mk_array [2; 2] [1; 2; 3; 4]%Q in
  let a3 : farray := mk_array [1; 1; 2] [1; 2]%Q in
  (1 <= 5)%Z
  /\ foldM (pin a2) a2 [Idx 1] = Ok a2 /\ ndim a2 = 2
  /\ dt_baseline (L := Reference.lazy) a2 5 LMax (ByName "lazy") "lazy" [Idx 1] None
     = raise NotImplementedError
  /\ foldM (pin a3) a3 [] = Ok a3 /\ 2 < ndim a3
  /\ dt_baseline (L := Reference.lazy) a3 5 LMax (ByName "lazy") "lazy" [] None
     = raise ValueError.
Proof.
  intros a2 a3.
  assert (Hiter : (1 <= 5)%Z) by lia.
  assert (Hp2 : foldM (pin a2) a2 [Idx 1] = Ok a2) by (vm_compute; reflexivity).
  assert (Hd2 : ndim a2 = 2) by reflexivity.
  assert (Hp3 : foldM (pin a3) a3 [] = Ok a3) by reflexivity.
  assert (Hd3 : 2 < ndim a3) by (unfold ndim; simpl; lia).
  split; [exact Hiter|]. split; [exact Hp2|]. split; [exact Hd2|].
  split; [exact (proj1 (dt_baseline_rejects_rank (H := Reference.lazy) a2 a2 5 LMax
                          (ByName "lazy") "lazy" [Idx 1] None Hiter Hp2) Hd2)|].
  split; [exact Hp3|]. split; [exact Hd3|].
  exact (proj2 (dt_baseline_rejects_rank (H := Reference.lazy) a3 a3 5 LMax
                  (ByName "lazy") "lazy" [] None Hiter Hp3) Hd3).
Defined.





(** ** The level and the size in [dt_approx_rec] *)

Lemma lazy_idwt_contract : idwt_contract (H := Reference.lazy).
Proof.
  intros cA cD w mode x Hx. simpl in Hx. unfold Reference.lazy_idwt in Hx.
  destruct (shape cA) as [|n [|? ?]]; try discriminate.
  destruct (shape cD) as [|k [|? ?]]; try discriminate.
  destruct (n =? k); [|discriminate]. injection Hx as <-. reflexivity.
Qed.

Lemma dt_approx_rec_shape_preserved_witness :
  let array : farray := arr1 [1; 2; 3; 4; 5; 6; 7]%Q in
  idwt_contract (H := Reference.lazy) /\ wavedec_contract (H := Reference.lazy)
  /\ shape array = [7]
  /\ as_Wavelet (L := Reference.lazy) (ByName "lazy") = Ok Reference.lazy_wavelet
  /\ dt_max_level (L := Reference.lazy) array (ByObject Reference.lazy_wavelet) "lazy"
     = Ok 2%Z
  /\ (1 <= 2)%Z
  /\ exists r,
      outcome (dt_approx_rec (L := Reference.lazy) array (LInt 9) (ByName "lazy") "lazy"
                 None) = Ok r
      /\ nd_shape r = [7].
Proof.
  intros array.
  assert (Hs : shape array = [7]) by reflexivity.
  assert (Hw : as_Wavelet (L := Reference.lazy) (ByName "lazy")
               = Ok Reference.lazy_wavelet) by reflexivity.
  assert (Hm : dt_max_level (L := Reference.lazy) array
                 (ByObject Reference.lazy_wavelet) "lazy" = Ok 2%Z) by reflexivity.
  assert (Hm1 : (1 <= 2)%Z) by lia.
  assert (Hl : LInt 9 = LMax \/ exists l, LInt 9 = LInt l /\ (1 <= l)%Z)
    by (right; exists 9%Z; split; [reflexivity | lia]).
  repeat (split; [first [exact lazy_idwt_contract | exact lazy_wavedec_contract
                        | assumption]|]).
  eexists. split; [vm_compute; reflexivity|].
  eapply (dt_approx_rec_shape_preserved (H := Reference.lazy) 7 array (LInt 9)
            (ByName "lazy") "lazy" None Reference.lazy_wavelet 2 _
            lazy_idwt_contract lazy_wavedec_contract Hs Hw Hm Hm1 Hl).
  vm_compute. reflexivity.
Defined.

Lemma dt_approx_rec_outcome_resolve `{PyWt} (array : farray) (lv1 lv2 : Level)
    (first_stage : WaveletSpec) (wavelet : string) (mask : option barray)
    (w : Wavelet) (m : Z) :
  as_Wavelet first_stage = Ok w ->
  dt_max_level array (ByObject w) wavelet = Ok m ->
  outcome (resolve_level lv1 m) = outcome (resolve_level lv2 m) ->
  outcome (dt_approx_rec array lv1 first_stage wavelet mask)
  = outcome (dt_approx_rec array lv2 first_stage wavelet mask).
Proof.
  intros Hw Hm Hres. unfold dt_approx_rec.
  destruct (2 <? ndim array); [reflexivity|].
  destruct (ndim array =? 2); [reflexivity|].
  rewrite Hw, !lift_Ok_bind, Hm, !lift_Ok_bind.
  rewrite (outcome_bind (resolve_level lv1 m)), (outcome_bind (resolve_level lv2 m)).
  rewrite Hres. reflexivity.
Qed.

(** X10.  Clamp and warn in [dt_approx_rec] (lines 124-128), for an input
    of rank below 2 whose maximum level [m] could be computed.  An int
    level above [m] issues exactly one warning, naming the level and [m],
    and then gives what level [m] and ['max'] give; an int level up to [m]
    and ['max'] issue no warning. *)
Theorem dt_approx_rec_clamps_level `{PyWt} (array : farray) (first_stage : WaveletSpec)
    (wavelet : string) (mask : option barray) (w : Wavelet) (m : Z) :
  ndim array < 2 ->
  as_Wavelet first_stage = Ok w ->
  dt_max_level array (ByObject w) wavelet = Ok m ->
  (forall l, (m < l)%Z ->
     log (dt_approx_rec array (LInt l) first_stage wavelet mask) = [UserWarning l m]
     /\ outcome (dt_approx_rec array (LInt l) first_stage wavelet mask)
        = outcome (dt_approx_rec array (LInt m) first_stage wavelet mask))
  /\ (forall l, (l <= m)%Z ->
        log (dt_approx_rec array (LInt l) first_stage wavelet mask) = [])
  /\ log (dt_approx_rec array LMax first_stage wavelet mask) = []
  /\ outcome (dt_approx_rec array LMax first_stage wavelet mask)
     = outcome (dt_approx_rec array (LInt m) first_stage wavelet mask).
Proof.
  intros Hd Hw Hm.
  assert (Hmm : outcome (resolve_level (LInt m) m) = Ok m).
  { simpl. rewrite Z.ltb_irrefl. reflexivity. }
  split; [|split; [|split]].
  - intros l Hl. apply Z.ltb_lt in Hl. split.
    + rewrite (dt_approx_rec_log array (LInt l) first_stage wavelet mask w m Hd Hw Hm).
      simpl. rewrite Hl. reflexivity.
    + apply (dt_approx_rec_outcome_resolve array _ _ first_stage wavelet mask w m Hw Hm).
      rewrite Hmm. simpl. rewrite Hl. reflexivity.
  - intros l Hl. apply Z.ltb_ge in Hl.
    rewrite (dt_approx_rec_log array (LInt l) first_stage wavelet mask w m Hd Hw Hm).
    simpl. rewrite Hl. reflexivity.
  - rewrite (dt_approx_rec_log array LMax first_stage wavelet mask w m Hd Hw Hm).
    reflexivity.
  - apply (dt_approx_rec_outcome_resolve array _ _ first_stage wavelet mask w m Hw Hm).
    rewrite Hmm. reflexivity.
Qed.

Lemma dt_approx_rec_clamps_level_witness :
  let array : farray := arr1 [1; 2; 3; 4; 5; 6; 7]%Q in
  ndim array < 2
  /\ as_Wavelet (L := Reference.lazy) (ByName "lazy") = Ok Reference.lazy_wavelet
  /\ dt_max_level (L := Reference.lazy) array (ByObject Reference.lazy_wavelet) "lazy"
     = Ok 2%Z
  /\ (2 < 9)%Z
  /\ log (dt_approx_rec (L := Reference.lazy) array (LInt 9) (ByName "lazy") "lazy" None)
     = [UserWarning 9 2]
  /\ outcome (dt_approx_rec (L := Reference.lazy) array (LInt 9) (ByName "lazy") "lazy"
                None)
     = outcome (dt_approx_rec (L := Reference.lazy) array (LInt 2) (ByName "lazy") "lazy"
                  None).
Proof.
  intros array.
  assert (Hd : ndim array < 2) by (unfold ndim; simpl; lia).
  assert (Hw : as_Wavelet (L := Reference.lazy) (ByName "lazy")
               = Ok Reference.lazy_wavelet) by reflexivity.
  assert (Hm : dt_max_level (L := Reference.lazy) array
                 (ByObject Reference.lazy_wavelet) "lazy" = Ok 2%Z) by reflexivity.
  assert (Hl : (2 < 9)%Z) by lia.
  split; [exact Hd|]. split; [exact Hw|]. split; [exact Hm|]. split; [exact Hl|].
  exact (proj1 (dt_approx_rec_clamps_level (H := Reference.lazy) array (ByName "lazy")
                  "lazy" None Reference.lazy_wavelet 2 Hd Hw Hm) 9%Z Hl).
Defined.

Lemma fmap_const_replicate {A B : Type} (v : B) (xs : list A) :
  (fun _ => v) <$> xs = replicate (length xs) v.
Proof. induction xs as [|x xs IH]; simpl; [reflexivity | f_equal; exact IH]. Qed.

(** X11.  The size adjustment at the end of [dt_approx_rec] (lines
    150-166), for a 1-D input of [n] samples and a 1-D float
    reconstruction of [k] samples: the result has [n] samples, the first
    [min n k] of which are those of the reconstruction, in order, and the
    remaining [n - k] are 0.  So a longer reconstruction loses its tail, a
    shorter one is padded with zeros at the end, and one of the right
    length is returned as it is. *)
Theorem reconcile_truncates_or_pads (n k : nat) (array reconstructed : farray) :
  wf1 n array -> wf1 k reconstructed ->
  reconcile 1 array (F64 reconstructed)
  = Ok (F64 (mk_array [n] (take n (data reconstructed) ++ replicate (n - k) 0%Q))).
Proof.
  intros [Ha La] [Hk Lk]. unfold reconcile, nd_size, size. cbn [nd_shape].
  rewrite Ha, Hk. cbn [prod_list foldr Nat.eqb]. rewrite !Nat.mul_1_r.
  destruct (k =? n) eqn:E1.
  { apply Nat.eqb_eq in E1. rewrite E1 in Hk, Lk |- *.
    rewrite Nat.sub_diag, take_ge, app_nil_r by lia.
    destruct reconstructed as [s d]. simpl in Hk. subst s. reflexivity. }
  apply Nat.eqb_neq in E1.
  destruct (n <? k) eqn:E2.
  - apply Nat.ltb_lt in E2. cbn [shape0 mbind result_bind nd_take].
    unfold getslice, stride. rewrite Hk. cbn [tail prod_list foldr fmap result_fmap].
    assert (Hhi : norm_bound k k (Some (Z.of_nat n)) = n)
      by (unfold norm_bound; destruct (Z.ltb_spec (Z.of_nat n) 0); lia).
    rewrite Hhi. cbn [norm_bound].
    replace (n - k) with 0 by lia.
    rewrite !Nat.sub_0_r, !Nat.mul_1_r, app_nil_r. reflexivity.
  - apply Nat.ltb_ge in E2. cbn [shape0 mbind result_bind np_real].
    unfold setslice, zeros_like_f, stride. cbn [shape data]. rewrite Ha, Hk.
    cbn [tail prod_list foldr].
    assert (Hhi : norm_bound n n (Some (Z.of_nat k)) = k)
      by (unfold norm_bound; destruct (Z.ltb_spec (Z.of_nat k) 0); lia).
    rewrite Hhi. cbn [norm_bound]. rewrite !Nat.sub_0_r.
    rewrite decide_True by reflexivity. cbn [fmap result_fmap].
    rewrite !Nat.mul_1_r. rewrite take_0. cbn [app Nat.add].
    rewrite (take_ge (data reconstructed)) by lia.
    rewrite fmap_const_replicate, drop_replicate, La. reflexivity.
Qed.

Lemma reconcile_truncates_or_pads_witness :
  let array : farray := arr1 [9; 9; 9; 9]%Q in
  wf1 4 array /\ wf1 6 (arr1 [1; 2; 3; 4; 5; 6]%Q) /\ wf1 2 (arr1 [1; 2]%Q)
  /\ reconcile 1 array (F64 (arr1 [1; 2; 3; 4; 5; 6]%Q)) = Ok (F64 (arr1 [1; 2; 3; 4]%Q))
  /\ reconcile 1 array (F64 (arr1 [1; 2]%Q)) = Ok (F64 (arr1 [1; 2; 0; 0]%Q)).
Proof.
  intros array.
  assert (Hwa : wf1 4 array) by (split; reflexivity).
  assert (Hw6 : wf1 6 (arr1 [1; 2; 3; 4; 5; 6]%Q)) by (split; reflexivity).
  assert (Hw2 : wf1 2 (arr1 [1; 2]%Q)) by (split; reflexivity).
  split; [exact Hwa|]. split; [exact Hw6|]. split; [exact Hw2|]. split.
  - exact (reconcile_truncates_or_pads 4 6 array _ Hwa Hw6).
  - exact (reconcile_truncates_or_pads 4 2 array _ Hwa Hw2).
Defined.

(** X12.  A 0-d input has no extent to take the minimum of: with the
    wavelet arguments resolved, [dt_max_level] raises [ValueError] on it,
    and so does [dt_approx_rec], without a warning. *)
Theorem dt_max_level_of_scalar `{PyWt} (array : farray) (level : Level)
    (first_stage : WaveletSpec) (wavelet : string) (mask : option barray)
    (w : Wavelet) (p : Wavelet * Wavelet) :
  shape array = [] ->
  as_Wavelet first_stage = Ok w ->
  dualtree_wavelet wavelet = Ok p ->
  dt_max_level array first_stage wavelet = Raise ValueError
  /\ dt_approx_rec array level first_stage wavelet mask = raise ValueError.
Proof.
  intros Hs Hw Hp.
  assert (Hmax : forall fs, as_Wavelet fs = Ok w ->
                            dt_max_level array fs wavelet = Raise ValueError).
  { intros fs Hfs. unfold dt_max_level. rewrite Hp. destruct p as [rw iw].
    cbn [mbind result_bind]. rewrite Hfs. cbn [mbind result_bind].
    rewrite Hs. reflexivity. }
  split; [apply Hmax; exact Hw|].
  unfold dt_approx_rec, ndim. rewrite Hs. cbn [length Nat.ltb Nat.leb Nat.eqb].
  rewrite Hw, lift_Ok_bind, (Hmax (ByObject w) eq_refl). reflexivity.
Qed.

Lemma dt_max_level_of_scalar_witness :
  shape (scalar 5%Q) = []
  /\ as_Wavelet (L := Reference.lazy) (ByName "lazy") = Ok Reference.lazy_wavelet
  /\ dualtree_wavelet (PyWt := Reference.lazy) "lazy"
     = Ok (Reference.lazy_wavelet, Reference.lazy_wavelet)
  /\ dt_max_level (L := Reference.lazy) (scalar 5%Q) (ByName "lazy") "lazy"
     = Raise ValueError
  /\ dt_approx_rec (L := Reference.lazy) (scalar 5%Q) LMax (ByName "lazy") "lazy" None
     = raise ValueError.
Proof.
  assert (Hs : shape (scalar 5%Q) = []) by reflexivity.
  assert (Hw : as_Wavelet (L := Reference.lazy) (ByName "lazy")
               = Ok Reference.lazy_wavelet) by reflexivity.
  assert (Hp : dualtree_wavelet (PyWt := Reference.lazy) "lazy"
               = Ok (Reference.lazy_wavelet, Reference.lazy_wavelet)) by reflexivity.
  split; [exact Hs|]. split; [exact Hw|]. split; [exact Hp|].
  exact (dt_max_level_of_scalar (H := Reference.lazy) (scalar 5%Q) LMax (ByName "lazy")
           "lazy" None _ _ Hs Hw Hp).
Defined.

(** ** Names and objects, levels, and the single-tree synthesis *)

Lemma baseline_loop_ext `{PyWt} (array : farray) (level : Level)
    (fs1 fs2 : WaveletSpec) (wavelet : string) (regions : list Index) (mask : barray) :
  (forall signal m, dt_approx_rec signal level fs1 wavelet m
                    = dt_approx_rec signal level fs2 wavelet m) ->
  forall k signal background,
    baseline_loop k array level fs1 wavelet regions mask signal background
    = baseline_loop k array level fs2 wavelet regions mask signal background.
Proof.
  intros Heq. induction k as [|k IH]; intros signal background; [reflexivity|].
  cbn [baseline_loop]. unfold baseline_iteration.
  destruct (foldM (pin array) signal regions) as [pinned|e]; [|reflexivity].
  rewrite !lift_Ok_bind, Heq.
  unfold mbind, M_bind.
  destruct (outcome (dt_approx_rec pinned level fs2 wavelet (Some mask))) as [bg|e];
    [|reflexivity].
  cbn [outcome log]. destruct (clamp pinned bg) as [s'|e]; cbn [lift outcome log];
    [|reflexivity].
  cbn [mret M_ret outcome log]. rewrite IH. reflexivity.
Qed.

(** X13.  "str or Wavelet": wherever a first-stage wavelet is taken, its
    name and the object the name resolves to give the same result (value,
    exception and warnings): in [dt_first_stage], [dt_max_level],
    [dtanalysis], [dtsynthesis], [dt_approx_rec] and [dt_baseline].  In
    particular [dt_approx_rec], which resolves the name once and passes the
    object on, computes what its callees would compute from the name. *)
Theorem first_stage_by_name_or_object `{PyWt} (s : string) (w : Wavelet) :
  Wavelet_by_name s = Ok w ->
  dt_first_stage (ByName s) = dt_first_stage (ByObject w)
  /\ (forall input wavelet,
        dt_max_level input (ByName s) wavelet = dt_max_level input (ByObject w) wavelet)
  /\ (forall input wavelet level mode,
        dtanalysis input (ByName s) wavelet level mode
        = dtanalysis input (ByObject w) wavelet level mode)
  /\ (forall coeffs wavelet mode,
        dtsynthesis coeffs (ByName s) wavelet mode
        = dtsynthesis coeffs (ByObject w) wavelet mode)
  /\ (forall array level wavelet mask,
        dt_approx_rec array level (ByName s) wavelet mask
        = dt_approx_rec array level (ByObject w) wavelet mask)
  /\ (forall array max_iter level wavelet regions mask,
        dt_baseline array max_iter level (ByName s) wavelet regions mask
        = dt_baseline array max_iter level (ByObject w) wavelet regions mask).
Proof.
  intros Hs.
  assert (Hfs : dt_first_stage (ByName s) = dt_first_stage (ByObject w)).
  { unfold dt_first_stage, dt_first_stage_heap. cbn [as_Wavelet]. rewrite Hs. reflexivity. }
  assert (Har : forall array level wavelet mask,
             dt_approx_rec array level (ByName s) wavelet mask
             = dt_approx_rec array level (ByObject w) wavelet mask).
  { intros array level wavelet mask. unfold dt_approx_rec. cbn [as_Wavelet].
    rewrite Hs. reflexivity. }
  split; [exact Hfs|]. split; [|split; [|split; [|split]]].
  - intros input wavelet. unfold dt_max_level. cbn [as_Wavelet]. rewrite Hs. reflexivity.
  - intros input wavelet level mode. unfold dtanalysis. rewrite Hfs.
    cbn [as_Wavelet]. rewrite Hs. reflexivity.
  - intros coeffs wavelet mode. unfold dtsynthesis. rewrite Hfs. reflexivity.
  - exact Har.
  - intros array max_iter level wavelet regions mask. unfold dt_baseline.
    rewrite (baseline_loop_ext array level (ByName s) (ByObject w) wavelet regions _
               (fun signal m => Har signal level wavelet m)).
    reflexivity.
Qed.

Lemma first_stage_by_name_or_object_witness :
  Wavelet_by_name (PyWt := Reference.lazy) "lazy" = Ok Reference.lazy_wavelet
  /\ dt_baseline (L := Reference.lazy) (arr1 [1; 9; 3; 9]%Q) 2 LMax (ByName "lazy") "lazy"
       [Idx 0] None
     = dt_baseline (L := Reference.lazy) (arr1 [1; 9; 3; 9]%Q) 2 LMax
         (ByObject Reference.lazy_wavelet) "lazy" [Idx 0] None.
Proof.
  assert (Hs : Wavelet_by_name (PyWt := Reference.lazy) "lazy"
               = Ok Reference.lazy_wavelet) by reflexivity.
  split; [exact Hs|].
  apply (first_stage_by_name_or_object (H := Reference.lazy) "lazy"
           Reference.lazy_wavelet Hs).
Defined.

(** X14.  A negative int level: [dtanalysis] raises [ValueError] once its
    wavelet arguments are resolved, and [dt_approx_rec], which passes on
    the requested level or a maximum below it, raises [ValueError] as well
    (after the warning, if the maximum is lower still). *)
Theorem negative_level_rejected `{PyWt} (input : farray) (first_stage : WaveletSpec)
    (wavelet mode : string) (l : Z) (p q : Wavelet * Wavelet) :
  (l < 0)%Z ->
  dualtree_wavelet wavelet = Ok p ->
  dt_first_stage first_stage = Ok q ->
  dtanalysis input first_stage wavelet (LInt l) mode = Raise ValueError
  /\ forall mask w m,
      ndim input < 2 ->
      as_Wavelet first_stage = Ok w ->
      dt_first_stage (ByObject w) = Ok q ->
      dt_max_level input (ByObject w) wavelet = Ok m ->
      outcome (dt_approx_rec input (LInt l) first_stage wavelet mask) = Raise ValueError.
Proof.
  intros Hl Hp Hq.
  assert (Hneg : forall fs l', (l' < 0)%Z -> dt_first_stage fs = Ok q ->
                   dtanalysis input fs wavelet (LInt l') mode = Raise ValueError).
  { intros fs l' Hl' Hfs. destruct (dt_first_stage_inv _ _ Hfs) as [w Hw].
    unfold dtanalysis. rewrite Hp. destruct p as [rw iw]. cbn [mbind result_bind].
    rewrite Hfs. destruct q as [rf imf]. cbn [mbind result_bind]. rewrite Hw.
    cbn [mbind result_bind]. apply Z.ltb_lt in Hl'. rewrite Hl'. reflexivity. }
  split; [apply Hneg; assumption|].
  intros mask w m Hd Hw Hqw Hm. unfold dt_approx_rec.
  destruct (2 <? ndim input) eqn:E2; [apply Nat.ltb_lt in E2; lia|].
  destruct (ndim input =? 2) eqn:E1; [apply Nat.eqb_eq in E1; lia|].
  rewrite Hw, lift_Ok_bind, Hm, lift_Ok_bind, outcome_bind.
  destruct (outcome (resolve_level (LInt l) m)) as [lvl|e] eqn:Hres.
  - pose proof (proj2 (resolve_level_bounds _ _ _ Hres) l eq_refl) as Hle.
    rewrite outcome_bind, outcome_lift.
    assert (Hm' : forall md, dtanalysis input (ByObject w) wavelet (LInt lvl) md
                             = Raise ValueError).
    { intros md. unfold dtanalysis. rewrite Hp. destruct p as [rw iw].
      cbn [mbind result_bind]. rewrite Hqw. destruct q as [rf imf].
      cbn [mbind result_bind as_Wavelet].
      replace (lvl <? 0)%Z with true by (symmetry; apply Z.ltb_lt; lia). reflexivity. }
    rewrite Hm'. reflexivity.
  - simpl in Hres. destruct (m <? l)%Z; discriminate.
Qed.

Lemma negative_level_rejected_witness :
  let input : farray := arr1 [1; 2; 3; 4]%Q in
  let w2 := mkWavelet "lazy" [0; 1]%Q [0; 0]%Q [0; 1]%Q [0; 0]%Q in
  (-1 < 0)%Z
  /\ dualtree_wavelet (PyWt := Reference.lazy) "lazy"
     = Ok (Reference.lazy_wavelet, Reference.lazy_wavelet)
  /\ dt_first_stage (L := Reference.lazy) (ByName "lazy") = Ok (Reference.lazy_wavelet, w2)
  /\ dtanalysis (L := Reference.lazy) input (ByName "lazy") "lazy" (LInt (-1)) "symmetric"
     = Raise ValueError
  /\ outcome (dt_approx_rec (L := Reference.lazy) input (LInt (-1)) (ByName "lazy") "lazy"
                None) = Raise ValueError.
Proof.
  intros input w2.
  assert (Hl : (-1 < 0)%Z) by lia.
  assert (Hp : dualtree_wavelet (PyWt := Reference.lazy) "lazy"
               = Ok (Reference.lazy_wavelet, Reference.lazy_wavelet)) by reflexivity.
  assert (Hq : dt_first_stage (L := Reference.lazy) (ByName "lazy")
               = Ok (Reference.lazy_wavelet, w2)) by reflexivity.
  pose proof (negative_level_rejected (H := Reference.lazy) input (ByName "lazy") "lazy"
                "symmetric" (-1) _ _ Hl Hp Hq) as [Han Har].
  split; [exact Hl|]. split; [exact Hp|]. split; [exact Hq|]. split; [exact Han|].
  apply (Har None Reference.lazy_wavelet 2%Z).
  - unfold ndim. simpl. lia.
  - reflexivity.
  - reflexivity.
  - reflexivity.
Defined.

(** X15.  The level ['max'] in [dtanalysis].  With the maximum level [m]
    computed, ['max'] runs the two trees at level [m]: for [m >= 1] this is
    what the int level [m] gives.  But the test for level 0 is not made
    once ['max'] has been resolved: when [m] is 0, ['max'] does not return
    the input as the int level 0 does; it runs the trees at level 0, which
    ask [wavedec] for level -1, and whatever it returns is a list. *)
Theorem dtanalysis_level_max `{PyWt} (input : farray) (first_stage : WaveletSpec)
    (wavelet mode : string) (w : Wavelet) (m : Z) :
  as_Wavelet first_stage = Ok w ->
  dt_max_level input (ByObject w) wavelet = Ok m ->
  ((1 <= m)%Z ->
   dtanalysis input first_stage wavelet LMax mode
   = dtanalysis input first_stage wavelet (LInt m) mode)
  /\ forall c,
      dtanalysis input first_stage wavelet LMax mode = Ok c ->
      (exists coeffs_list, c = Coeffs coeffs_list)
      /\ exists real_first imag_first real_wavelet imag_wavelet approx detail late,
          dt_first_stage first_stage = Ok (real_first, imag_first)
          /\ dualtree_wavelet wavelet = Ok (real_wavelet, imag_wavelet)
          /\ dwt input real_first mode = Ok (approx, detail)
          /\ wavedec approx real_wavelet mode (m - 1)%Z = Ok late.
Proof.
  intros Hw Hm. split.
  - intros Hm1. unfold dtanalysis.
    destruct (dualtree_wavelet wavelet) as [[rw iw]|e]; [|reflexivity].
    cbn [mbind result_bind].
    destruct (dt_first_stage first_stage) as [[rf imf]|e]; [|reflexivity].
    cbn [mbind result_bind]. rewrite Hw. cbn [mbind result_bind]. rewrite Hm.
    cbn [mbind result_bind].
    replace (m <? 0)%Z with false by (symmetry; apply Z.ltb_ge; lia).
    replace (m =? 0)%Z with false by (symmetry; apply Z.eqb_neq; lia).
    reflexivity.
  - intros c Hc. unfold dtanalysis in Hc.
    apply bind_Ok in Hc as ([rw iw] & Hdt & Hc).
    apply bind_Ok in Hc as ([rf imf] & Hfs & Hc).
    rewrite Hw in Hc. cbn [mbind result_bind] in Hc. rewrite Hm in Hc.
    cbn [mbind result_bind] in Hc. unfold analysis_trees in Hc.
    apply bind_Ok in Hc as (rcs & Hr & Hc).
    apply bind_Ok in Hc as (ics & _ & Hc).
    apply bind_Ok in Hc as (cs & _ & Hc). injection Hc as <-.
    split; [eauto|].
    apply analysis_tree_inv in Hr as (approx & detail & late & Hdwt & Hdec & _).
    exists rf, imf, rw, iw, approx, detail, late. auto.
Qed.

Lemma dtanalysis_level_max_witness :
  let input : farray := arr1 [1; 2; 3; 4; 5; 6; 7; 8]%Q in
  let short : farray := arr1 [5]%Q in
  as_Wavelet (L := Reference.lazy) (ByName "lazy") = Ok Reference.lazy_wavelet
  /\ dt_max_level (L := Reference.lazy) input (ByObject Reference.lazy_wavelet) "lazy"
     = Ok 3%Z
  /\ (1 <= 3)%Z
  /\ dtanalysis (L := Reference.lazy) input (ByName "lazy") "lazy" LMax "symmetric"
     = dtanalysis (L := Reference.lazy) input (ByName "lazy") "lazy" (LInt 3) "symmetric"
  /\ dt_max_level (L := Reference.lazy) short (ByObject Reference.lazy_wavelet) "lazy"
     = Ok 0%Z
  /\ dtanalysis (L := Reference.lazy) short (ByName "lazy") "lazy" LMax "symmetric"
     = Raise ValueError
  /\ dtanalysis (L := Reference.lazy) short (ByName "lazy") "lazy" (LInt 0) "symmetric"
     = Ok (Bare short).
Proof.
  intros input short.
  assert (Hw : as_Wavelet (L := Reference.lazy) (ByName "lazy")
               = Ok Reference.lazy_wavelet) by reflexivity.
  assert (Hm : dt_max_level (L := Reference.lazy) input
                 (ByObject Reference.lazy_wavelet) "lazy" = Ok 3%Z) by reflexivity.
  assert (Hm1 : (1 <= 3)%Z) by lia.
  split; [exact Hw|]. split; [exact Hm|]. split; [exact Hm1|].
  split; [exact (proj1 (dtanalysis_level_max (H := Reference.lazy) input (ByName "lazy")
                          "lazy" "symmetric" _ 3 Hw Hm) Hm1)|].
  repeat split; vm_compute; reflexivity.
Defined.

(** X16.  The repair of the off-by-one in [_dt_synthesis_tree].  The last
    coefficient is the first-stage detail, the ones before it go to
    [waverec]; if what [waverec] returns is exactly one sample longer than
    the detail, [idwt] is given it without its last sample, so with as many
    samples as the detail; otherwise [idwt] is given it as it is.  An
    empty coefficient list raises [IndexError]. *)
Theorem synthesis_tree_trims `{PyWt} (late_coeffs : list farray) (detail late : farray)
    (first_stage wavelet : Wavelet) (mode : string) (k nd : nat) :
  waverec late_coeffs wavelet mode = Ok late ->
  wf1 k late -> shape detail = [nd] ->
  (k = nd + 1 ->
   _dt_synthesis_tree (late_coeffs ++ [detail]) first_stage wavelet mode
   = idwt (mk_array [nd] (take nd (data late))) detail first_stage mode)
  /\ (k <> nd + 1 ->
      _dt_synthesis_tree (late_coeffs ++ [detail]) first_stage wavelet mode
      = idwt late detail first_stage mode)
  /\ _dt_synthesis_tree [] first_stage wavelet mode = Raise IndexError.
Proof.
  intros Hrec [Hk Lk] Hd.
  assert (Hpre : forall r,
             (late' ← (if k =? nd + 1 then getslice late None (Some (-1)%Z) else Ok late);
              idwt late' detail first_stage mode) = r ->
             _dt_synthesis_tree (late_coeffs ++ [detail]) first_stage wavelet mode = r).
  { intros r <-. unfold _dt_synthesis_tree.
    rewrite last_snoc, length_app. cbn [length].
    replace (length late_coeffs + 1 - 1) with (length late_coeffs) by lia.
    rewrite take_app_length. cbn [mbind result_bind]. rewrite Hrec.
    cbn [mbind result_bind]. unfold py_len. rewrite Hk, Hd. reflexivity. }
  split; [|split; [|reflexivity]].
  - intros E. apply Hpre. replace (k =? nd + 1) with true by (symmetry; apply Nat.eqb_eq; lia).
    unfold getslice, stride. rewrite Hk. cbn [tail prod_list foldr mbind result_bind].
    assert (Hhi : norm_bound k k (Some (-1)%Z) = nd) by (unfold norm_bound; simpl; lia).
    rewrite Hhi. cbn [norm_bound]. rewrite !Nat.sub_0_r, !Nat.mul_1_r. reflexivity.
  - intros E. apply Hpre.
    replace (k =? nd + 1) with false by (symmetry; apply Nat.eqb_neq; lia). reflexivity.
Qed.

Lemma synthesis_tree_trims_witness :
  let late : farray := arr1 [1; 2; 3]%Q in
  let detail : farray := arr1 [7; 8]%Q in
  waverec (PyWt := Reference.lazy) [late] Reference.lazy_wavelet "symmetric" = Ok late
  /\ wf1 3 late /\ shape detail = [2] /\ 3 = 2 + 1
  /\ _dt_synthesis_tree (L := Reference.lazy) ([late] ++ [detail]) Reference.lazy_wavelet
       Reference.lazy_wavelet "symmetric"
     = idwt (PyWt := Reference.lazy) (mk_array [2] (take 2 (data late))) detail
         Reference.lazy_wavelet "symmetric"
  /\ _dt_synthesis_tree (L := Reference.lazy) ([late] ++ [detail]) Reference.lazy_wavelet
       Reference.lazy_wavelet "symmetric" = Ok (arr1 [1; 7; 2; 8]%Q).
Proof.
  intros late detail.
  assert (Hrec : waverec (PyWt := Reference.lazy) [late] Reference.lazy_wavelet
                   "symmetric" = Ok late) by reflexivity.
  assert (Hw : wf1 3 late) by (split; reflexivity).
  assert (Hd : shape detail = [2]) by reflexivity.
  assert (E : 3 = 2 + 1) by reflexivity.
  split; [exact Hrec|]. split; [exact Hw|]. split; [exact Hd|]. split; [exact E|].
  split; [|vm_compute; reflexivity].
  exact (proj1 (synthesis_tree_trims (H := Reference.lazy) [late] detail late
                  Reference.lazy_wavelet Reference.lazy_wavelet "symmetric" 3 2
                  Hrec Hw Hd) E).
Defined.

(** X17.  What [dt_first_stage] returns can be used wherever a wavelet is
    expected: for a wavelet with four non-empty filters of one length, the
    shifted wavelet again has four non-empty filters of that same length
    (so it has the same [dec_len], and [dt_max_level] is the same for
    both), and [dt_first_stage] applied to it succeeds in turn, shifting
    each filter once more. *)
Theorem dt_first_stage_keeps_wavelets_valid `{PyWt} (wavelet : WaveletSpec)
    (w wav2 : Wavelet) :
  as_Wavelet wavelet = Ok w -> wf_wavelet w ->
  dt_first_stage wavelet = Ok (w, wav2) ->
  wf_wavelet wav2
  /\ dec_len wav2 = dec_len w
  /\ (forall input name,
        dt_max_level input (ByObject wav2) name = dt_max_level input (ByObject w) name)
  /\ exists wav3,
      dt_first_stage (ByObject wav2) = Ok (wav2, wav3)
      /\ dec_lo wav3 = shift (shift (dec_lo w)).
Proof.
  intros Hw Hwf Hfs.
  rewrite (dt_first_stage_eq wavelet w Hw Hwf) in Hfs. injection Hfs as <-.
  destruct (wf_wavelet_nonempty w Hwf) as (N1 & N2 & N3 & N4).
  pose proof Hwf as (W0 & W1 & W2 & W3).
  assert (Hwf2 : wf_wavelet
                   (mkWavelet (name w) (shift (dec_lo w)) (shift (dec_hi w))
                      (shift (rec_lo w)) (shift (rec_hi w)))).
  { unfold wf_wavelet. cbn [dec_lo dec_hi rec_lo rec_hi].
    rewrite !length_shift by assumption. lia. }
  split; [exact Hwf2|].
  assert (Hlen : dec_len (mkWavelet (name w) (shift (dec_lo w)) (shift (dec_hi w))
                            (shift (rec_lo w)) (shift (rec_hi w))) = dec_len w).
  { unfold dec_len. cbn [dec_lo]. apply length_shift. exact N1. }
  split; [exact Hlen|]. split.
  - intros input name. unfold dt_max_level. cbn [as_Wavelet mbind result_bind].
    destruct (dualtree_wavelet name) as [[rw iw]|e]; [|reflexivity].
    cbn [mbind result_bind]. rewrite Hlen. reflexivity.
  - eexists. split; [apply dt_first_stage_eq; [reflexivity | exact Hwf2]|].
    reflexivity.
Qed.

Lemma dt_first_stage_keeps_wavelets_valid_witness :
  let w2 := mkWavelet "padded" (0%Q :: [1; 0]%Q ++ replicate 9 0%Q)
              (0%Q :: [0; 1]%Q ++ replicate 9 0%Q)
              (0%Q :: [1; 0]%Q ++ replicate 9 0%Q)
              (0%Q :: [0; 1]%Q ++ replicate 9 0%Q) in
  as_Wavelet (L := Reference.lazy) (ByObject Reference.padded_wavelet)
    = Ok Reference.padded_wavelet
  /\ wf_wavelet Reference.padded_wavelet
  /\ dt_first_stage (L := Reference.lazy) (ByObject Reference.padded_wavelet)
     = Ok (Reference.padded_wavelet, w2)
  /\ wf_wavelet w2 /\ dec_len w2 = dec_len Reference.padded_wavelet.
Proof.
  intros w2.
  assert (Hw : as_Wavelet (L := Reference.lazy) (ByObject Reference.padded_wavelet)
               = Ok Reference.padded_wavelet) by reflexivity.
  assert (Hwf : wf_wavelet Reference.padded_wavelet)
    by (unfold wf_wavelet; simpl; lia).
  assert (Hfs : dt_first_stage (L := Reference.lazy) (ByObject Reference.padded_wavelet)
                = Ok (Reference.padded_wavelet, w2)) by (vm_compute; reflexivity).
  split; [exact Hw|]. split; [exact Hwf|]. split; [exact Hfs|].
  pose proof (dt_first_stage_keeps_wavelets_valid (H := Reference.lazy)
                (ByObject Reference.padded_wavelet) Reference.padded_wavelet w2
                Hw Hwf Hfs) as (H1 & H2 & _).
  split; [exact H1 | exact H2].
Defined.
